(** * Kiro/generate_skills_and_agents.py: skills and agent records

    A shallow embedding of the generator script: its three static tables,
    [generate_skill_md], [build_mcp_servers] and [process_agents], and the
    properties of the specification that concern them.

    Conventions of the model:
    - a Python [str] is a [string], one [ascii] per character; a Python
      [dict] is an association list in insertion order; an exception is the
      left summand of a result type;
    - a file of the agents directory is the value [json.load] reads from it,
      and [json.dump] stores the value it is given: the text of the file is
      a function of that value, so equal values are equal files;
    - SKILL.md files are texts; writing them neither translates newlines
      nor fails on a character;
    - the progress lines printed by the script are left out. *)

From Stdlib Require Import String Ascii ZArith Lia.
From stdpp Require Import base option list sorting gmap fin_maps strings.

Local Set Warnings "-register-all".

(** ** Python values *)

(** The values [json.load] produces. A float is carried by its IEEE-754
    bit pattern: the script only passes such values through. *)
Inductive json : Type :=
  | JNull
  | JBool (b : bool)
  | JInt (n : Z)
  | JFloat (bits : Z)
  | JStr (s : string)
  | JList (l : list json)
  | JDict (d : list (string * json)).

Inductive exn : Type :=
  | KeyError (k : string)
  | TypeError
  | JSONDecodeError
  | FileNotFoundError.

Definition result (A : Type) : Type := (exn + A)%type.

Module Result.
Definition ret {A} (x : A) : result A := inr x.
Definition raise {A} (e : exn) : result A := inl e.
Definition bind {A B} (m : result A) (k : A → result B) : result B :=
  match m with
  | inl e => inl e
  | inr x => k x
  end.
End Result.

#[global] Instance result_ret : MRet result := @Result.ret.
#[global] Instance result_bind : MBind result := λ A B k m, Result.bind m k.

(** ** Dictionaries in insertion order *)

Section dict.
Context {V : Type}.

Fixpoint dict_get (d : list (string * V)) (k : string) : option V :=
  match d with
  | [] => None
  | (k', v) :: d' => if (k' =? k)%string then Some v else dict_get d' k
  end.

(** [k in d] *)
Definition dict_mem (d : list (string * V)) (k : string) : bool :=
  match dict_get d k with Some _ => true | None => false end.

(** [d.get(k, default)] *)
Definition dict_get_default (d : list (string * V)) (k : string) (default : V) : V :=
  match dict_get d k with Some v => v | None => default end.

(** [d[k]] *)
Definition getitem (d : list (string * V)) (k : string) : result V :=
  match dict_get d k with
  | Some v => Result.ret v
  | None => Result.raise (KeyError k)
  end.

(** [d[k] = v]: an existing key keeps its position, a new one goes last. *)
Fixpoint dict_set (d : list (string * V)) (k : string) (v : V) : list (string * V) :=
  match d with
  | [] => [(k, v)]
  | (k', v') :: d' =>
      if (k' =? k)%string then (k, v) :: d' else (k', v') :: dict_set d' k v
  end.

Definition keys (d : list (string * V)) : list string := d.*1.
End dict.

(** [x.copy()] on a value: the aliasing it avoids is the subject of module
    [Heap] below. *)
Definition copy {A : Type} (x : A) : A := x.

(** ** The static tables *)

Definition npx (args : list string) : list (string * json) :=
  [("command", JStr "npx"); ("args", JList (JStr <$> args))].

Definition MCP_SERVERS : list (string * list (string * json)) :=
  [ ("filesystem", npx ["-y"; "@modelcontextprotocol/server-filesystem"; "$HOME"]);
    ("memory", npx ["-y"; "@modelcontextprotocol/server-memory"]);
    ("context7", npx ["-y"; "@upstash/context7-mcp@latest"]);
    ("sequential-thinking", npx ["-y"; "@modelcontextprotocol/server-sequential-thinking"]);
    ("puppeteer", npx ["-y"; "@modelcontextprotocol/server-puppeteer"]);
    ("playwright", npx ["-y"; "@playwright/mcp"]);
    ("dynamodb",
       [ ("command", JStr "uvx");
         ("args", JList [JStr "awslabs.dynamodb-mcp-server@latest"]);
         ("env", JDict [ ("AWS_REGION", JStr "ap-southeast-2");
                         ("AWS_PROFILE", JStr "default");
                         ("DDB-MCP-READONLY", JStr "false") ]) ]);
    ("aws-kb",
       [ ("command", JStr "npx");
         ("args", JList [JStr "-y"; JStr "@modelcontextprotocol/server-aws-kb-retrieval"]);
         ("env", JDict [ ("AWS_PROFILE", JStr "default") ]) ]) ].

Definition AGENT_MCPS : list (string * list string) :=
  [ ("architecture-expert", ["context7"; "sequential-thinking"; "aws-kb"]);
    ("cdk-expert-ts", ["context7"; "aws-kb"]);
    ("cdk-expert-python", ["context7"; "aws-kb"]);
    ("code-reviewer", []);
    ("data-scientist", ["context7"; "dynamodb"; "aws-kb"]);
    ("devops-engineer", ["context7"; "playwright"]);
    ("documentation-engineer", ["context7"]);
    ("frontend-engineer-ts", ["context7"]);
    ("frontend-engineer-dart", ["context7"]);
    ("linux-specialist", []);
    ("product-manager", []);
    ("project-coordinator", []);
    ("python-backend", ["context7"; "dynamodb"; "aws-kb"]);
    ("python-test-engineer", ["context7"; "dynamodb"]);
    ("security-specialist", ["context7"; "sequential-thinking"; "aws-kb"]);
    ("test-coordinator", ["playwright"]);
    ("typescript-test-engineer", ["context7"; "sequential-thinking"; "puppeteer"; "playwright"]);
    ("ui-ux-designer", ["context7"; "puppeteer"]) ].

(** ** [build_mcp_servers] *)

(** [for x in l: s = body x s], stopping at the first exception. *)
Fixpoint for_each {A S : Type} (l : list A) (body : A → S → result S) (s : S) : result S :=
  match l with
  | [] => Result.ret s
  | x :: l' => s' ← body x s; for_each l' body s'
  end.

Definition build_mcp_servers (agent_name : string) : result (list (string * list (string * json))) :=
  let servers := [] in
  (* Common MCPs for all agents *)
  fs ← getitem MCP_SERVERS "filesystem";
  let servers := dict_set servers "filesystem" (copy fs) in
  mem ← getitem MCP_SERVERS "memory";
  let servers := dict_set servers "memory" (copy mem) in
  (* Agent-specific MCPs *)
  let extra_mcps := dict_get_default AGENT_MCPS agent_name [] in
  for_each extra_mcps (λ mcp_name servers,
    d ← getitem MCP_SERVERS mcp_name;
    let servers := dict_set servers mcp_name (copy d) in
    d ← getitem MCP_SERVERS mcp_name;
    if dict_mem d "env" then
      d ← getitem MCP_SERVERS mcp_name;
      env ← getitem d "env";
      entry ← getitem servers mcp_name;
      mret (dict_set servers mcp_name (dict_set entry "env" (copy env)))
    else mret servers) servers.

Definition BRIEF_PROMPTS : list (string * string) :=
  [ ("architecture-expert", "You are a pragmatic AWS solutions architect. Follow the detailed guidelines in your skill resource for security, scalability, cost-effectiveness, and caching strategies.");
    ("cdk-expert-ts", "You are an AWS CDK expert specializing in TypeScript infrastructure as code. Follow the detailed guidelines in your skill resource.");
    ("cdk-expert-python", "You are an AWS CDK expert specializing in Python infrastructure as code. Follow the detailed guidelines in your skill resource.");
    ("code-reviewer", "You are a senior engineer reviewing for security, architecture, and unnecessary complexity. Follow the detailed guidelines in your skill resource.");
    ("data-scientist", "You are a data scientist and data engineer with deep expertise in AWS data services, big data processing, and machine learning. Follow the detailed guidelines in your skill resource.");
    ("devops-engineer", "You are a DevOps engineer specializing in secure CI/CD pipelines, load testing, and monitoring. Follow the detailed guidelines in your skill resource.");
    ("documentation-engineer", "You are a documentation engineer focused on clear, concise, up-to-date documentation. Follow the detailed guidelines in your skill resource.");
    ("frontend-engineer-ts", "You are a frontend engineer focused on simple, clean React with TypeScript. Follow the detailed guidelines in your skill resource.");
    ("frontend-engineer-dart", "You are a frontend engineer focused on clean, idiomatic Flutter and Dart. Follow the detailed guidelines in your skill resource.");
    ("linux-specialist", "You are a Linux SME with deep command line, git, and containerization expertise. Follow the detailed guidelines in your skill resource.");
    ("product-manager", "You are a product manager focused on spec-driven development and feature preservation. Follow the detailed guidelines in your skill resource.");
    ("project-coordinator", "You are a project coordinator responsible for maintaining project context and orchestrating agent collaboration. Follow the detailed guidelines in your skill resource.");
    ("python-backend", "You are a Senior Python 3.12 backend engineer focused on clean, typed, functional code with database expertise. Follow the detailed guidelines in your skill resource.");
    ("python-test-engineer", "You are a Python test engineer writing pragmatic pytest tests and enforcing code standards. Follow the detailed guidelines in your skill resource.");
    ("security-specialist", "You are a senior application security engineer specializing in secure development, threat modeling, and cloud security hardening. Follow the detailed guidelines in your skill resource.");
    ("test-coordinator", "You are a test coordinator enforcing test-driven development and quality standards. Follow the detailed guidelines in your skill resource.");
    ("typescript-test-engineer", "You are a TypeScript test engineer for pragmatic testing and code quality. Follow the detailed guidelines in your skill resource.");
    ("ui-ux-designer", "You are a UI/UX designer focused on intuitive, beautiful, accessible interfaces. Follow the detailed guidelines in your skill resource.") ].

(** ** String operations of the script *)

(** The newline character of the f-string templates. *)
Definition nl : string := String "010" "".

(** [s[:n]] for a string. *)
Fixpoint str_take (n : nat) (s : string) : string :=
  match n, s with
  | S n', String c s' => String c (str_take n' s')
  | _, _ => ""
  end.

(** [s.endswith(suffix)]: some tail of [s] is [suffix]. *)
Fixpoint endswith (s suffix : string) : bool :=
  (s =? suffix)%string
  || match s with
     | "" => false
     | String _ s' => endswith s' suffix
     end.

(** [sub in s]. *)
Fixpoint contains (sub s : string) : bool :=
  String.prefix sub s
  || match s with
     | "" => false
     | String _ s' => contains sub s'
     end.

(** [s.replace(old, new)] scans from the left; after a match the scan resumes
    behind it, which [skip] counts down. *)
Fixpoint replace_from (old new : string) (skip : nat) (s : string) : string :=
  match s with
  | "" => ""
  | String c s' =>
      match skip with
      | S k => replace_from old new k s'
      | O =>
          if String.prefix old s
          then new +:+ replace_from old new (String.length old - 1) s'
          else String c (replace_from old new 0 s')
      end
  end.

Fixpoint replace_empty (new s : string) : string :=
  match s with
  | "" => new
  | String c s' => new +:+ String c (replace_empty new s')
  end.

Definition replace (old new s : string) : string :=
  match old with
  | "" => replace_empty new s
  | _ => replace_from old new 0 s
  end.

(** ** Subscripts on loaded values *)

(** [v[k]] for a string key. *)
Definition subscript (v : json) (k : string) : result json :=
  match v with
  | JDict d => getitem d k
  | _ => Result.raise TypeError
  end.

(** [v[:200]]. Strings and lists can be sliced; a dict rejects the slice as
    a key and the remaining values are not subscriptable, all reported here
    as [TypeError]. *)
Definition slice200 (v : json) : result json :=
  match v with
  | JStr s => Result.ret (JStr (str_take 200 s))
  | JList l => Result.ret (JList (take 200 l))
  | _ => Result.raise TypeError
  end.

(** The prompt kept in the rewritten record,
    [BRIEF_PROMPTS.get(agent_name, prompt[:200])]: the default is evaluated
    before the lookup, so a prompt that cannot be sliced raises even for an
    identifier of the table. *)
Definition summarize_prompt (agent_name : string) (prompt : json) : result json :=
  default ← slice200 prompt;
  mret (from_option JStr default (dict_get BRIEF_PROMPTS agent_name)).

(** ** The two directories *)

(** [agents]: the entries of AGENTS_DIR by file name; [Some v] is a file
    holding a JSON document that [json.load] reads as [v] (and that
    [json.dump] of [v] writes), [None] an entry [json.load] rejects.
    [skills]: the directories [os.path.join(SKILLS_DIR, name)] by [name],
    each with the text of its SKILL.md when it has one. *)
Record fs : Type := Fs {
  agents : gmap string (option json);
  skills : gmap string (option string)
}.

(** State and exceptions: the directories as they are when the computation
    returns or raises. *)
Definition M (A : Type) : Type := fs → fs * result A.

#[global] Instance M_ret : MRet M := λ A x st, (st, inr x).
#[global] Instance M_bind : MBind M := λ A B k m st,
  match m st with
  | (st', inl e) => (st', inl e)
  | (st', inr x) => k x st'
  end.

Definition lift {A} (r : result A) : M A := λ st, (st, r).

(** [os.listdir(AGENTS_DIR)] *)
Definition listdir : M (list string) :=
  λ st, (st, inr (map_to_list (agents st)).*1).

(** [sorted] on file names. *)
Definition sorted (l : list string) : list string := merge_sort String.le l.

(** [open(filepath, "r")] followed by [json.load]. *)
Definition json_load (filename : string) : M json :=
  λ st, match agents st !! filename with
        | Some (Some v) => (st, inr v)
        | Some None => (st, inl JSONDecodeError)
        | None => (st, inl FileNotFoundError)
        end.

(** [open(filepath, "w")], [json.dump(v, f, indent=4)] and the final newline. *)
Definition json_dump (filename : string) (v : json) : M unit :=
  λ st, (Fs (<[filename := Some v]> (agents st)) (skills st), inr ()).

(** [os.makedirs(skill_dir, exist_ok=True)] *)
Definition makedirs (skill_dir : string) : M unit :=
  λ st, match skills st !! skill_dir with
        | Some _ => (st, inr ())
        | None => (Fs (agents st) (<[skill_dir := None]> (skills st)), inr ())
        end.

(** [open(skill_path, "w")] and [f.write(content)]. *)
Definition write_skill (skill_dir content : string) : M unit :=
  λ st, match skills st !! skill_dir with
        | Some _ => (Fs (agents st) (<[skill_dir := Some content]> (skills st)), inr ())
        | None => (st, inl FileNotFoundError)
        end.

(** [for x in l: body x], stopping at the first exception. *)
Fixpoint for_M {A : Type} (l : list A) (body : A → M unit) : M unit :=
  match l with
  | [] => mret ()
  | x :: l' => body x;; for_M l' body
  end.

(** ** [generate_skill_md] and [process_agents] *)

Section process.
(** What an f-string field prints for a value that is not a [str]:
    Python's [repr] of lists, dicts, numbers, booleans and [None]. *)
Variable py_repr : json → string.

(** [f"{v}"] *)
Definition format (v : json) : string :=
  match v with
  | JStr s => s
  | _ => py_repr v
  end.

Definition generate_skill_md (name description prompt_content : json) : string :=
  "---" +:+ nl +:+
  "name: " +:+ format name +:+ nl +:+
  "description: " +:+ format description +:+ nl +:+
  "---" +:+ nl +:+
  nl +:+
  format prompt_content +:+ nl.

(** The body of the loop of [process_agents] for a file name ending in
    ".json". The progress lines printed on the way are left out. *)
Definition process_file (filename : string) : M unit :=
  let agent_name := replace ".json" "" filename in
  agent ← json_load filename;
  (* 1. Create SKILL.md *)
  let skill_dir := agent_name in
  makedirs skill_dir;;
  name ← lift (subscript agent "name");
  description ← lift (subscript agent "description");
  prompt ← lift (subscript agent "prompt");
  let skill_content := generate_skill_md name description prompt in
  write_skill skill_dir skill_content;;
  (* 2. Update agent JSON *)
  prompt ← lift (subscript agent "prompt");
  brief_prompt ← lift (summarize_prompt agent_name prompt);
  mcp_servers ← lift (build_mcp_servers agent_name);
  name ← lift (subscript agent "name");
  description ← lift (subscript agent "description");
  tools ← lift (subscript agent "tools");
  allowedTools ← lift (subscript agent "allowedTools");
  let updated_agent :=
    JDict [ ("name", name);
            ("description", description);
            ("tools", tools);
            ("allowedTools", allowedTools);
            ("prompt", brief_prompt);
            ("includeMcpJson", JBool false);
            ("mcpServers", JDict (prod_map id JDict <$> mcp_servers));
            ("resources",
               JList [ JStr "file://.kiro/steering/**/*.md";
                       JStr ("skill://.kiro/skills/" +:+ agent_name +:+ "/SKILL.md") ]) ] in
  json_dump filename updated_agent.

Definition process_agents : M unit :=
  filenames ← listdir;
  for_M (sorted filenames) (λ filename,
    if negb (endswith filename ".json") then mret ()
    else process_file filename).

(** *** The two artefacts of one file, as functions of the loaded record *)

(** The text of SKILL.md for a loaded record. *)
Definition skill_of (agent : json) : result string :=
  name ← subscript agent "name";
  description ← subscript agent "description";
  prompt ← subscript agent "prompt";
  mret (generate_skill_md name description prompt).

(** The record written back for a loaded record. *)
Definition updated_of (agent_name : string) (agent : json) : result json :=
  prompt ← subscript agent "prompt";
  brief_prompt ← summarize_prompt agent_name prompt;
  mcp_servers ← build_mcp_servers agent_name;
  name ← subscript agent "name";
  description ← subscript agent "description";
  tools ← subscript agent "tools";
  allowedTools ← subscript agent "allowedTools";
  mret (JDict [ ("name", name);
                ("description", description);
                ("tools", tools);
                ("allowedTools", allowedTools);
                ("prompt", brief_prompt);
                ("includeMcpJson", JBool false);
                ("mcpServers", JDict (prod_map id JDict <$> mcp_servers));
                ("resources",
                   JList [ JStr "file://.kiro/steering/**/*.md";
                           JStr ("skill://.kiro/skills/" +:+ agent_name +:+ "/SKILL.md") ]) ]).

(** The skills directory after [os.makedirs]. *)
Definition with_dir (d : string) (sk : gmap string (option string)) :
    gmap string (option string) :=
  match sk !! d with
  | Some _ => sk
  | None => <[d := None]> sk
  end.

(** [u] is the record the script writes for the loaded record [agent] of
    the agent [agent_name]: eight fields, in this order. *)
Definition rewritten_record (agent_name : string) (agent u : json) : Prop :=
  ∃ name description tools allowedTools prompt brief_prompt mcp_servers,
    subscript agent "name" = inr name
    ∧ subscript agent "description" = inr description
    ∧ subscript agent "tools" = inr tools
    ∧ subscript agent "allowedTools" = inr allowedTools
    ∧ subscript agent "prompt" = inr prompt
    ∧ summarize_prompt agent_name prompt = inr brief_prompt
    ∧ build_mcp_servers agent_name = inr mcp_servers
    ∧ u = JDict [ ("name", name);
                  ("description", description);
                  ("tools", tools);
                  ("allowedTools", allowedTools);
                  ("prompt", brief_prompt);
                  ("includeMcpJson", JBool false);
                  ("mcpServers", JDict (prod_map id JDict <$> mcp_servers));
                  ("resources",
                     JList [ JStr "file://.kiro/steering/**/*.md";
                             JStr ("skill://.kiro/skills/" +:+ agent_name +:+ "/SKILL.md") ]) ].

(** *** The loop as a plan

    What one iteration does depends on the file name and on the content of
    that file only: the writes to the skills directory are recorded as a list
    of operations, the record written back (if any) as a value. *)

Inductive skill_op : Type :=
  | Mkdir (d : string)
  | Write (d : string) (doc : string).

Definition apply_op (sk : gmap string (option string)) (o : skill_op) :
    gmap string (option string) :=
  match o with
  | Mkdir d => with_dir d sk
  | Write d doc => <[d := Some doc]> sk
  end.

Definition apply_ops (ops : list skill_op) (sk : gmap string (option string)) :
    gmap string (option string) :=
  foldl apply_op sk ops.

Definition file_plan (filename : string) (content : option (option json)) :
    list skill_op * result (option json) :=
  let agent_name := replace ".json" "" filename in
  if negb (endswith filename ".json") then ([], inr None)
  else
    match content with
    | None => ([], inl FileNotFoundError)
    | Some None => ([], inl JSONDecodeError)
    | Some (Some agent) =>
        match skill_of agent with
        | inl e => ([Mkdir agent_name], inl e)
        | inr doc =>
            match updated_of agent_name agent with
            | inl e => ([Write agent_name doc], inl e)
            | inr u => ([Write agent_name doc], inr (Some u))
            end
        end
    end.

Definition outcome {A} (r : result A) : result () :=
  match r with
  | inl e => inl e
  | inr _ => inr ()
  end.

Definition store (filename : string) (c : option json)
    (a : gmap string (option json)) : gmap string (option json) :=
  match c with
  | Some u => <[filename := Some u]> a
  | None => a
  end.

Fixpoint loop_plan (l : list string) (a : gmap string (option json)) :
    gmap string (option json) * list skill_op * result () :=
  match l with
  | [] => (a, [], inr ())
  | filename :: l' =>
      match file_plan filename (a !! filename) with
      | (ops, inl e) => (a, ops, inl e)
      | (ops, inr c) =>
          let '(a', ops', r) := loop_plan l' (store filename c a) in
          (a', (ops ++ ops')%list, r)
      end
  end.

(** What a list of operations does to one directory of SKILLS_DIR. *)
Inductive effect : Type :=
  | Keep
  | Made
  | Written (doc : string).

Definition act (e : effect) (x : option (option string)) : option (option string) :=
  match e with
  | Keep => x
  | Made => match x with Some c => Some c | None => Some None end
  | Written doc => Some (Some doc)
  end.

Definition op_effect (d : string) (o : skill_op) : effect :=
  match o with
  | Mkdir d' => if decide (d' = d) then Made else Keep
  | Write d' doc => if decide (d' = d) then Written doc else Keep
  end.

(** [later] after [earlier]. *)
Definition after (later earlier : effect) : effect :=
  match later with
  | Keep => earlier
  | Made => match earlier with Keep => Made | _ => earlier end
  | Written doc => Written doc
  end.

Definition ops_effect (d : string) (ops : list skill_op) : effect :=
  foldl (λ e o, after (op_effect d o) e) Keep ops.

End process.

(** ** Objects and references

    [build_mcp_servers] once more, with Python's object model: lists and
    dicts live in a store and are passed by reference, [.copy()] makes a new
    object holding the same references. This is the model for the question
    whether the mappings of two agents share anything. *)

Module Heap.

Definition loc : Type := nat.

Inductive val : Type :=
  | Const (v : json)
  | Ref (l : loc).

Inductive obj : Type :=
  | Dict (d : list (string * val))
  | List (l : list val).

Definition heap : Type := list obj.

Definition H (A : Type) : Type := heap → result (A * heap).

#[global] Instance H_ret : MRet H := λ A x h, inr (x, h).
#[global] Instance H_bind : MBind H := λ A B k m h,
  match m h with
  | inl e => inl e
  | inr (x, h') => k x h'
  end.

Definition raise {A} (e : exn) : H A := λ _, inl e.

Definition alloc (o : obj) : H loc := λ h, inr (length h, (h ++ [o])%list).

(** A reference handed out by [alloc] is never dangling; the second case
    is there for totality. *)
Definition load (l : loc) : H obj :=
  λ h, match h !! l with
       | Some o => inr (o, h)
       | None => inl TypeError
       end.

Definition store (l : loc) (o : obj) : H () := λ h, inr ((), <[l := o]> h).

(** The object a value refers to; strings and numbers are no objects with
    items. *)
Definition deref (v : val) : H loc :=
  match v with
  | Ref l => mret l
  | Const _ => raise TypeError
  end.

(** [d[k]] *)
Definition getitem (d : loc) (k : string) : H val :=
  o ← load d;
  match o with
  | Dict kv =>
      match dict_get kv k with
      | Some v => mret v
      | None => raise (KeyError k)
      end
  | List _ => raise TypeError
  end.

(** [k in d] *)
Definition contains (d : loc) (k : string) : H bool :=
  o ← load d;
  match o with
  | Dict kv => mret (dict_mem kv k)
  | List vs =>
      mret (existsb (λ v, match v with
                          | Const (JStr s) => (s =? k)%string
                          | _ => false
                          end) vs)
  end.

(** [d[k] = v], in place. *)
Definition setitem (d : loc) (k : string) (v : val) : H () :=
  o ← load d;
  match o with
  | Dict kv => store d (Dict (dict_set kv k v))
  | List _ => raise TypeError
  end.

(** [x.copy()]: a new object with the items of [x]. *)
Definition copy (x : loc) : H loc := o ← load x; alloc o.

(** [l.append(v)], in place. *)
Definition append (l : loc) (v : val) : H () :=
  o ← load l;
  match o with
  | List vs => store l (List (vs ++ [v]))
  | Dict _ => raise TypeError
  end.

(** Evaluating a literal allocates its lists and dicts, innermost first. *)
Fixpoint literal (v : json) : H val :=
  match v with
  | JList l =>
      vs ← (fix items (l : list json) : H (list val) :=
              match l with
              | [] => mret []
              | x :: l' => v ← literal x; vs ← items l'; mret (v :: vs)
              end) l;
      r ← alloc (List vs);
      mret (Ref r)
  | JDict d =>
      kvs ← (fix items (d : list (string * json)) : H (list (string * val)) :=
               match d with
               | [] => mret []
               | (k, x) :: d' => v ← literal x; kvs ← items d'; mret ((k, v) :: kvs)
               end) d;
      r ← alloc (Dict kvs);
      mret (Ref r)
  | _ => mret (Const v)
  end.

(** The value behind a reference, followed to depth [fuel]. *)
Fixpoint read (fuel : nat) (h : heap) (v : val) : option json :=
  match v with
  | Const c => Some c
  | Ref l =>
      match fuel with
      | O => None
      | S fuel' =>
          match h !! l with
          | Some (List vs) => JList <$> mapM (read fuel' h) vs
          | Some (Dict kvs) =>
              JDict <$> mapM (λ kv, pair kv.1 <$> read fuel' h kv.2) kvs
          | None => None
          end
      end
  end.

Definition snapshot (v : val) : H json :=
  λ h, match read (S (length h)) h v with
       | Some j => inr (j, h)
       | None => inl TypeError
       end.

(** The module-level assignment [MCP_SERVERS = {...}]. *)
Definition boot : H loc :=
  literal (JDict (prod_map id JDict <$> MCP_SERVERS)) ≫= deref.

Fixpoint for_each {A : Type} (l : list A) (body : A → H ()) : H () :=
  match l with
  | [] => mret ()
  | x :: l' => body x;; for_each l' body
  end.

Definition build_mcp_servers (MCP_SERVERS : loc) (agent_name : string) : H loc :=
  servers ← alloc (Dict []);
  (* Common MCPs for all agents *)
  d ← getitem MCP_SERVERS "filesystem" ≫= deref;
  c ← copy d;
  setitem servers "filesystem" (Ref c);;
  d ← getitem MCP_SERVERS "memory" ≫= deref;
  c ← copy d;
  setitem servers "memory" (Ref c);;
  (* Agent-specific MCPs *)
  let extra_mcps := dict_get_default AGENT_MCPS agent_name [] in
  for_each extra_mcps (λ mcp_name,
    d ← getitem MCP_SERVERS mcp_name ≫= deref;
    c ← copy d;
    setitem servers mcp_name (Ref c);;
    (* Deep copy env if present *)
    d ← getitem MCP_SERVERS mcp_name ≫= deref;
    has_env ← contains d "env";
    if has_env : bool then
      d ← getitem MCP_SERVERS mcp_name ≫= deref;
      env ← getitem d "env" ≫= deref;
      env' ← copy env;
      entry ← getitem servers mcp_name ≫= deref;
      setitem entry "env" (Ref env')
    else mret ());;
  mret servers.

(** Two agents are resolved one after the other; then one item of the first
    agent's mapping is changed in place by [mutate], which receives the
    first mapping. The result: the second agent's mapping and the static
    table, each before and after the change. *)
Definition two_agents (agent1 agent2 : string) (mutate : loc → H ()) :
    H ((json * json) * (json * json)) :=
  MCP_SERVERS ← boot;
  servers1 ← build_mcp_servers MCP_SERVERS agent1;
  servers2 ← build_mcp_servers MCP_SERVERS agent2;
  other_before ← snapshot (Ref servers2);
  table_before ← snapshot (Ref MCP_SERVERS);
  mutate servers1;;
  other_after ← snapshot (Ref servers2);
  table_after ← snapshot (Ref MCP_SERVERS);
  mret ((other_before, other_after), (table_before, table_after)).

(** [servers[name]["args"].append(extra)] *)
Definition append_arg (name extra : string) (servers : loc) : H () :=
  d ← getitem servers name ≫= deref;
  args ← getitem d "args" ≫= deref;
  append args (Const (JStr extra)).

(** [servers[name]["env"][key] = value] *)
Definition set_env (name key value : string) (servers : loc) : H () :=
  d ← getitem servers name ≫= deref;
  env ← getitem d "env" ≫= deref;
  setitem env key (Const (JStr value)).

(** [servers[name][key] = value] *)
Definition set_field (name key value : string) (servers : loc) : H () :=
  d ← getitem servers name ≫= deref;
  setitem d key (Const (JStr value)).

End Heap.

(** ** The script with its standard output

    [process_agents] once more, with the lines it prints, and the main
    block around it. The directories change as in [process_agents]; the
    output is the list of the strings given to [print]. *)

Record world : Type := World {
  disk : fs;
  stdout : list string
}.

Definition W (A : Type) : Type := world → world * result A.

#[global] Instance W_ret : MRet W := λ A x w, (w, inr x).
#[global] Instance W_bind : MBind W := λ A B k m w,
  match m w with
  | (w', inl e) => (w', inl e)
  | (w', inr x) => k x w'
  end.

(** A computation on the directories, run in the world. *)
Definition on_disk {A} (m : M A) : W A :=
  λ w, let '(st, r) := m (disk w) in (World st (stdout w), r).

(** [print(line)] *)
Definition print (line : string) : W () :=
  λ w, (World (disk w) (stdout w ++ [line]), inr ()).

Fixpoint for_W {A : Type} (l : list A) (body : A → W ()) : W () :=
  match l with
  | [] => mret ()
  | x :: l' => body x;; for_W l' body
  end.

(** [os.path.join(a, b)] on POSIX paths. *)
Definition path_join (a b : string) : string :=
  if String.prefix "/" b then b
  else if (a =? "")%string || endswith a "/" then a +:+ b
  else a +:+ "/" +:+ b.

Definition process_file_verbose (py_repr : json → string) (filename : string) : W () :=
  let agent_name := replace ".json" "" filename in
  agent ← on_disk (json_load filename);
  (* 1. Create SKILL.md *)
  let skill_dir := agent_name in
  on_disk (makedirs skill_dir);;
  name ← on_disk (lift (subscript agent "name"));
  description ← on_disk (lift (subscript agent "description"));
  prompt ← on_disk (lift (subscript agent "prompt"));
  let skill_content := generate_skill_md py_repr name description prompt in
  on_disk (write_skill skill_dir skill_content);;
  print ("  + skill: " +:+ agent_name +:+ "/SKILL.md");;
  (* 2. Update agent JSON *)
  prompt ← on_disk (lift (subscript agent "prompt"));
  brief_prompt ← on_disk (lift (summarize_prompt agent_name prompt));
  mcp_servers ← on_disk (lift (build_mcp_servers agent_name));
  name ← on_disk (lift (subscript agent "name"));
  description ← on_disk (lift (subscript agent "description"));
  tools ← on_disk (lift (subscript agent "tools"));
  allowedTools ← on_disk (lift (subscript agent "allowedTools"));
  let updated_agent :=
    JDict [ ("name", name);
            ("description", description);
            ("tools", tools);
            ("allowedTools", allowedTools);
            ("prompt", brief_prompt);
            ("includeMcpJson", JBool false);
            ("mcpServers", JDict (prod_map id JDict <$> mcp_servers));
            ("resources",
               JList [ JStr "file://.kiro/steering/**/*.md";
                       JStr ("skill://.kiro/skills/" +:+ agent_name +:+ "/SKILL.md") ]) ] in
  on_disk (json_dump filename updated_agent);;
  let mcp_names :=
    (["filesystem"; "memory"] ++ dict_get_default AGENT_MCPS agent_name [])%list in
  print ("  * agent: " +:+ agent_name +:+ ".json -> MCPs: "
         +:+ String.concat ", " mcp_names).

Definition process_agents_verbose (py_repr : json → string) : W () :=
  filenames ← on_disk listdir;
  for_W (sorted filenames) (λ filename,
    if negb (endswith filename ".json") then mret ()
    else process_file_verbose py_repr filename).

(** The main block; [script_dir] is [os.path.dirname(__file__)]. *)
Definition main (py_repr : json → string) (script_dir : string) : W () :=
  let AGENTS_DIR := path_join script_dir "agents" in
  let SKILLS_DIR := path_join script_dir "skills" in
  print ("Generating SKILL.md files and updating agent JSONs..." +:+ nl);;
  process_agents_verbose py_repr;;
  print (nl +:+ "Done! Generated skills in " +:+ SKILLS_DIR);;
  print ("Updated agents in " +:+ AGENTS_DIR).

(** *** The lines of one iteration and of the loop, by the plan *)

Definition skill_line (agent_name : string) : string :=
  "  + skill: " +:+ agent_name +:+ "/SKILL.md".

Definition agent_line (agent_name : string) (mcp_names : list string) : string :=
  "  * agent: " +:+ agent_name +:+ ".json -> MCPs: " +:+ String.concat ", " mcp_names.

Definition file_lines (py_repr : json → string) (filename : string)
    (content : option (option json)) : list string :=
  let agent_name := replace ".json" "" filename in
  if negb (endswith filename ".json") then []
  else
    match content with
    | Some (Some agent) =>
        match skill_of py_repr agent with
        | inl _ => []
        | inr _ =>
            match updated_of agent_name agent with
            | inl _ => [skill_line agent_name]
            | inr _ =>
                [ skill_line agent_name;
                  agent_line agent_name
                    (["filesystem"; "memory"]
                     ++ dict_get_default AGENT_MCPS agent_name [])%list ]
            end
        end
    | _ => []
    end.

Fixpoint loop_lines (py_repr : json → string) (l : list string)
    (a : gmap string (option json)) : list string :=
  match l with
  | [] => []
  | filename :: l' =>
      (file_lines py_repr filename (a !! filename)
       ++ match file_plan py_repr filename (a !! filename) with
          | (_, inl _) => []
          | (_, inr c) => loop_lines py_repr l' (store filename c a)
          end)%list
  end.

(** ** Resolving one agent after another *)

(** [agent1] is resolved, then [agent2]; the result is the first mapping
    and the static table, each as read before and after the second call. *)
Definition resolve_twice (agent1 agent2 : string) :
    Heap.H ((json * json) * (json * json)) :=
  MCP_SERVERS ← Heap.boot;
  table_before ← Heap.snapshot (Heap.Ref MCP_SERVERS);
  servers1 ← Heap.build_mcp_servers MCP_SERVERS agent1;
  first_before ← Heap.snapshot (Heap.Ref servers1);
  servers2 ← Heap.build_mcp_servers MCP_SERVERS agent2;
  first_after ← Heap.snapshot (Heap.Ref servers1);
  table_after ← Heap.snapshot (Heap.Ref MCP_SERVERS);
  mret ((first_before, first_after), (table_before, table_after)).

(** ** A small instance

    An agents directory with a record whose identifier is in the tables, one
    whose identifier is not, and a file that is no record. *)

Definition example_record (name prompt : string) : json :=
  JDict [ ("name", JStr name);
          ("description", JStr "An example agent");
          ("prompt", JStr prompt);
          ("tools", JList [JStr "read"; JStr "write"]);
          ("allowedTools", JList [JStr "read"]) ].

Definition example_fs : fs :=
  Fs (<["code-reviewer.json" := Some (example_record "code-reviewer" "Review the change.")]>
        (<["helper.json" := Some (example_record "helper" "Help with anything.")]>
           (<["README.md" := None]> ∅)))
     ∅.

(** The examples hold strings only where the templates print a value. *)
Definition example_repr (v : json) : string := "".

(** ** Two more small instances *)

(** A directory whose second record lacks its tool lists. *)
Definition example_broken_fs : fs :=
  Fs (<["a.json" := Some (example_record "a" "First prompt.")]>
        (<["b.json" := Some (JDict [ ("name", JStr "b");
                                     ("description", JStr "No tools");
                                     ("prompt", JStr "Second prompt.") ])]> ∅))
     ∅.

(** A directory with one file, holding [v]. *)
Definition single_fs (filename : string) (v : option json) : fs :=
  Fs {[ filename := v ]} ∅.

(** ** Properties of the tables *)

Lemma dict_get_default_cases {V} (d : list (string * V)) (k : string) (default : V) :
  dict_get_default d k default ∈ default :: d.*2.
Proof.
  unfold dict_get_default. induction d as [|[k' v] d IH]; simpl.
  - left.
  - destruct (k' =? k)%string; [right; left|].
    destruct (dict_get d k).
    + apply elem_of_cons in IH as [->|IH]; [left|right; right; exact IH].
    + left.
Qed.

(** The extras of an agent are one of the lists of the table, or empty. *)
Lemma extra_mcps_cases (agent_name : string) :
  dict_get_default AGENT_MCPS agent_name [] ∈ [] :: AGENT_MCPS.*2.
Proof. apply dict_get_default_cases. Qed.

Ltac each_extra_list H :=
  repeat (apply elem_of_cons in H as [->|H]); [..|apply elem_of_nil in H; destruct H].

(** C6: every server named in a value of [AGENT_MCPS] is a key of
    [MCP_SERVERS], and so no lookup of [build_mcp_servers] raises, whatever
    the agent identifier. *)
Theorem agent_mcps_defined :
  Forall (λ entry, Forall (λ mcp_name, dict_mem MCP_SERVERS mcp_name = true) entry.2)
         AGENT_MCPS
  ∧ ∀ agent_name, ∃ servers, build_mcp_servers agent_name = inr servers.
Proof.
  split; [repeat constructor|].
  intros agent_name. unfold build_mcp_servers.
  pose proof (extra_mcps_cases agent_name) as H.
  generalize dependent (dict_get_default AGENT_MCPS agent_name []).
  intros extras H. each_extra_list H; eexists; vm_compute; reflexivity.
Qed.

(** C1: for every agent identifier the resolver returns, without an
    exception, a mapping whose keys are "filesystem", "memory" and then the
    extras the table lists for the identifier (none when it is absent); as a
    set, the keys are the baseline united with the extras, both baseline keys
    are present, and no key occurs twice. *)
Theorem build_mcp_servers_keys (agent_name : string) :
  let extras := dict_get_default AGENT_MCPS agent_name [] in
  ∃ servers,
    build_mcp_servers agent_name = inr servers
    ∧ keys servers = (["filesystem"; "memory"] ++ extras)%list
    ∧ (∀ k, k ∈ keys servers ↔ k ∈ ["filesystem"; "memory"] ∨ k ∈ extras)
    ∧ "filesystem" ∈ keys servers ∧ "memory" ∈ keys servers
    ∧ NoDup (keys servers).
Proof.
  intros extras.
  assert (∃ servers, build_mcp_servers agent_name = inr servers
                     ∧ keys servers = (["filesystem"; "memory"] ++ extras)%list
                     ∧ NoDup (keys servers)) as (servers & Hb & Hk & Hnd).
  { unfold build_mcp_servers. fold extras.
    pose proof (extra_mcps_cases agent_name) as H. fold extras in H.
    clearbody extras.
    each_extra_list H;
      (eexists; split; [vm_compute; reflexivity|]; split; [reflexivity|]);
      apply (bool_decide_unpack _); vm_compute; exact I. }
  exists servers. split; [exact Hb|]. split; [exact Hk|].
  rewrite Hk. split; [intros k; apply elem_of_app|].
  split; [left|]. split; [right; left|]. rewrite <- Hk. exact Hnd.
Qed.

(** C8: the servers of "typescript-test-engineer" are the two common ones
    followed by context7, sequential-thinking, puppeteer and playwright, each
    with the descriptor of the static table, and nothing else. *)
Theorem build_mcp_servers_typescript_test_engineer :
  ∃ servers,
    build_mcp_servers "typescript-test-engineer" = inr servers
    ∧ keys servers = ["filesystem"; "memory"; "context7"; "sequential-thinking";
                      "puppeteer"; "playwright"]
    ∧ Forall (λ kv, dict_get MCP_SERVERS kv.1 = Some kv.2) servers.
Proof.
  eexists. split; [vm_compute; reflexivity|]. split; [reflexivity|].
  repeat constructor.
Qed.

(** ** One file of the loop *)

Lemma bind_lift {A B} (r : result A) (k : A → M B) (st : fs) :
  (lift r ≫= k) st = match r with inl e => (st, inl e) | inr x => k x st end.
Proof. unfold mbind, M_bind, lift. destruct r; reflexivity. Qed.

Lemma result_bind_inr {A B} (x : A) (k : A → result B) : (inr x ≫= k) = k x.
Proof. reflexivity. Qed.

Lemma result_bind_inl {A B} (e : exn) (k : A → result B) : (inl e ≫= k) = inl e.
Proof. reflexivity. Qed.

Section process_facts.
Variable py_repr : json → string.


Lemma bind_makedirs {B} (d : string) (k : () → M B) (a : gmap string (option json))
    (sk : gmap string (option string)) :
  (makedirs d ≫= k) (Fs a sk) = k () (Fs a (with_dir d sk)).
Proof.
  unfold mbind, M_bind, makedirs, with_dir. simpl. destruct (sk !! d); reflexivity.
Qed.

Lemma bind_write_skill {B} (d doc : string) (k : () → M B)
    (a : gmap string (option json)) (sk : gmap string (option string)) :
  (write_skill d doc ≫= k) (Fs a (with_dir d sk)) = k () (Fs a (<[d := Some doc]> sk)).
Proof.
  unfold mbind, M_bind, write_skill, with_dir. simpl.
  destruct (sk !! d) eqn:E; simpl.
  - rewrite E. reflexivity.
  - rewrite lookup_insert_eq, insert_insert_eq. reflexivity.
Qed.

Lemma process_file_unfold (filename : string) (st : fs) :
  process_file py_repr filename st =
    let agent_name := replace ".json" "" filename in
    match agents st !! filename with
    | None => (st, inl FileNotFoundError)
    | Some None => (st, inl JSONDecodeError)
    | Some (Some agent) =>
        match skill_of py_repr agent with
        | inl e => (Fs (agents st) (with_dir agent_name (skills st)), inl e)
        | inr doc =>
            let sk := <[agent_name := Some doc]> (skills st) in
            match updated_of agent_name agent with
            | inl e => (Fs (agents st) sk, inl e)
            | inr u => (Fs (<[filename := Some u]> (agents st)) sk, inr ())
            end
        end
    end.
Proof.
  unfold process_file, skill_of, updated_of. cbv zeta.
  generalize (replace ".json" "" filename). intros agent_name.
  destruct st as [a sk]. unfold mbind at 1. unfold M_bind, json_load.
  cbn [agents skills].
  destruct (a !! filename) as [[agent|]|] eqn:Hf; try reflexivity.
  rewrite bind_makedirs.
  do 3 (rewrite bind_lift;
        match goal with
        | |- context [subscript ?v ?k] =>
            destruct (subscript v k) eqn:?;
            rewrite ?result_bind_inl, ?result_bind_inr; [reflexivity|]
        end).
  rewrite bind_write_skill, bind_lift.
  unfold mret at 1. unfold result_ret, Result.ret.
  rewrite bind_lift.
  destruct (summarize_prompt _ _) as [e|brief];
    rewrite ?result_bind_inl, ?result_bind_inr; [reflexivity|].
  rewrite bind_lift.
  destruct (build_mcp_servers agent_name) as [e|mcp_servers];
    rewrite ?result_bind_inl, ?result_bind_inr; [reflexivity|].
  rewrite !bind_lift.
  destruct (subscript agent "tools") as [e|tools];
    rewrite ?result_bind_inl, ?result_bind_inr; [reflexivity|].
  rewrite bind_lift.
  destruct (subscript agent "allowedTools") as [e|allowedTools];
    rewrite ?result_bind_inl, ?result_bind_inr; reflexivity.
Qed.

(** ** The loop follows its plan *)

Lemma body_plan (filename : string) (a : gmap string (option json))
    (sk : gmap string (option string)) :
  (if negb (endswith filename ".json") then mret () else process_file py_repr filename) (Fs a sk) =
    let '(ops, r) := file_plan py_repr filename (a !! filename) in
    (Fs (match r with inr c => store filename c a | inl _ => a end) (apply_ops ops sk),
     outcome r).
Proof.
  unfold file_plan. destruct (endswith filename ".json"); [|reflexivity].
  cbn [negb]. rewrite process_file_unfold. cbn [agents skills].
  destruct (a !! filename) as [[agent|]|]; try reflexivity.
  destruct (skill_of py_repr agent) as [e|doc]; [reflexivity|].
  cbv zeta. destruct (updated_of _ agent) as [e|u]; reflexivity.
Qed.

Lemma apply_ops_app (ops ops' : list skill_op) (sk : gmap string (option string)) :
  apply_ops (ops ++ ops') sk = apply_ops ops' (apply_ops ops sk).
Proof. apply foldl_app. Qed.

Lemma for_M_plan (l : list string) (a : gmap string (option json))
    (sk : gmap string (option string)) :
  for_M l (λ filename,
      if negb (endswith filename ".json") then mret () else process_file py_repr filename)
    (Fs a sk) =
    let '(a', ops, r) := loop_plan py_repr l a in (Fs a' (apply_ops ops sk), r).
Proof.
  revert a sk. induction l as [|filename l IH]; intros a sk; [reflexivity|].
  cbn [for_M loop_plan]. unfold mbind at 1. unfold M_bind.
  rewrite body_plan.
  destruct (file_plan py_repr filename (a !! filename)) as [ops [e|c]]; [reflexivity|].
  cbn [outcome]. rewrite IH.
  destruct (loop_plan py_repr l (store filename c a)) as [[a' ops'] r].
  rewrite apply_ops_app. reflexivity.
Qed.

Lemma process_agents_plan (st : fs) :
  process_agents py_repr st =
    let '(a', ops, r) := loop_plan py_repr (sorted (map_to_list (agents st)).*1) (agents st) in
    (Fs a' (apply_ops ops (skills st)), r).
Proof.
  destruct st as [a sk]. unfold process_agents.
  unfold mbind at 1. unfold M_bind, listdir. cbn [agents skills].
  apply for_M_plan.
Qed.

(** ** The listing *)

Lemma listing_perm {V} (a a' : gmap string V) :
  dom a = dom a' → (map_to_list a).*1 ≡ₚ (map_to_list a').*1.
Proof.
  intros Hdom. apply NoDup_Permutation; try apply NoDup_fst_map_to_list.
  intros k. rewrite !list_elem_of_fmap.
  assert (∀ (m : gmap string V), (∃ y, k = y.1 ∧ y ∈ map_to_list m) ↔ k ∈ dom m) as E.
  { intros m. rewrite elem_of_dom. split.
    - intros [[k' v] [-> Hin]]. apply elem_of_map_to_list in Hin. eauto.
    - intros [v Hv]. exists (k, v). split; [reflexivity|].
      by apply elem_of_map_to_list. }
  rewrite !E, Hdom. reflexivity.
Qed.

Lemma sorted_perm (l l' : list string) : l ≡ₚ l' → sorted l = sorted l'.
Proof.
  intros Hp. unfold sorted.
  apply (StronglySorted_unique String.le); try apply StronglySorted_merge_sort; try apply _.
  by rewrite !merge_sort_Permutation.
Qed.

Lemma sorted_listing_dom {V} (a a' : gmap string V) :
  dom a = dom a' → sorted (map_to_list a).*1 = sorted (map_to_list a').*1.
Proof. intros Hdom. by apply sorted_perm, listing_perm. Qed.

Lemma sorted_listing_NoDup {V} (a : gmap string V) :
  NoDup (sorted (map_to_list a).*1).
Proof.
  unfold sorted. rewrite merge_sort_Permutation. apply NoDup_fst_map_to_list.
Qed.

Lemma elem_of_sorted_listing {V} (a : gmap string V) (k : string) :
  k ∈ sorted (map_to_list a).*1 ↔ is_Some (a !! k).
Proof.
  unfold sorted. rewrite merge_sort_Permutation, list_elem_of_fmap. split.
  - intros [[k' v] [-> Hin]]. apply elem_of_map_to_list in Hin. eauto.
  - intros [v Hv]. exists (k, v). split; [reflexivity|]. by apply elem_of_map_to_list.
Qed.

(** ** Writes to the skills directory *)

Lemma lookup_with_dir (d d' : string) (sk : gmap string (option string)) :
  with_dir d' sk !! d = act (if decide (d' = d) then Made else Keep) (sk !! d).
Proof.
  unfold with_dir. destruct (decide (d' = d)) as [->|Hne]; simpl.
  - destruct (sk !! d) as [c|] eqn:E; [by rewrite E|by rewrite lookup_insert_eq].
  - destruct (sk !! d'); [reflexivity|by rewrite lookup_insert_ne].
Qed.

Lemma lookup_apply_op (d : string) (o : skill_op) (sk : gmap string (option string)) :
  apply_op sk o !! d = act (op_effect d o) (sk !! d).
Proof.
  destruct o as [d'|d' doc]; simpl; [apply lookup_with_dir|].
  destruct (decide (d' = d)) as [->|Hne]; simpl;
    [by rewrite lookup_insert_eq|by rewrite lookup_insert_ne].
Qed.

Lemma act_after (later earlier : effect) (x : option (option string)) :
  act (after later earlier) x = act later (act earlier x).
Proof. destruct later, earlier, x; reflexivity. Qed.

Lemma act_idemp (e : effect) (x : option (option string)) :
  act e (act e x) = act e x.
Proof. destruct e, x; reflexivity. Qed.

Lemma lookup_apply_ops_from (d : string) (ops : list skill_op) (e : effect)
    (sk0 sk : gmap string (option string)) :
  sk !! d = act e (sk0 !! d) →
  foldl apply_op sk ops !! d
  = act (foldl (λ e o, after (op_effect d o) e) e ops) (sk0 !! d).
Proof.
  revert e sk. induction ops as [|o ops IH]; intros e sk Hsk; [exact Hsk|].
  simpl. apply IH. rewrite lookup_apply_op, act_after, Hsk. reflexivity.
Qed.

Lemma lookup_apply_ops (d : string) (ops : list skill_op)
    (sk : gmap string (option string)) :
  apply_ops ops sk !! d = act (ops_effect d ops) (sk !! d).
Proof. by apply lookup_apply_ops_from. Qed.

(** Replaying the writes of a run changes nothing. *)
Lemma apply_ops_idemp (ops : list skill_op) (sk : gmap string (option string)) :
  apply_ops ops (apply_ops ops sk) = apply_ops ops sk.
Proof. apply map_eq. intros d. rewrite !lookup_apply_ops. apply act_idemp. Qed.

(** ** The rewritten record is a fixed point *)

Lemma str_take_idemp (n : nat) (s : string) : str_take n (str_take n s) = str_take n s.
Proof.
  revert s. induction n as [|n IH]; intros [|c s]; simpl; try reflexivity.
  by rewrite IH.
Qed.

Lemma slice200_idemp (v w : json) : slice200 v = inr w → slice200 w = inr w.
Proof.
  destruct v; cbn [slice200]; unfold Result.ret, Result.raise; try discriminate; intros H.
  - assert (w = JStr (str_take 200 s)) as -> by congruence.
    cbn [slice200]. unfold Result.ret. by rewrite str_take_idemp.
  - assert (w = JList (take 200 l)) as -> by congruence.
    cbn [slice200]. unfold Result.ret. by rewrite take_idemp.
Qed.

Lemma summarize_prompt_idemp (agent_name : string) (prompt brief : json) :
  summarize_prompt agent_name prompt = inr brief →
  summarize_prompt agent_name brief = inr brief.
Proof.
  unfold summarize_prompt. generalize (dict_get BRIEF_PROMPTS agent_name). intros o.
  destruct (slice200 prompt) as [e|default] eqn:Hs; [discriminate|].
  rewrite result_bind_inr. intros H.
  assert (brief = from_option JStr default o) as -> by (unfold mret, result_ret, Result.ret in H; congruence).
  destruct o as [b|]; cbn [from_option]; [reflexivity|].
  by rewrite (slice200_idemp _ _ Hs).
Qed.

Lemma updated_of_inv (agent_name : string) (agent u : json) :
  updated_of agent_name agent = inr u →
  ∃ prompt brief_prompt mcp_servers name description tools allowedTools,
    subscript agent "prompt" = inr prompt
    ∧ summarize_prompt agent_name prompt = inr brief_prompt
    ∧ build_mcp_servers agent_name = inr mcp_servers
    ∧ subscript agent "name" = inr name
    ∧ subscript agent "description" = inr description
    ∧ subscript agent "tools" = inr tools
    ∧ subscript agent "allowedTools" = inr allowedTools
    ∧ u = JDict [ ("name", name);
                  ("description", description);
                  ("tools", tools);
                  ("allowedTools", allowedTools);
                  ("prompt", brief_prompt);
                  ("includeMcpJson", JBool false);
                  ("mcpServers", JDict (prod_map id JDict <$> mcp_servers));
                  ("resources",
                     JList [ JStr "file://.kiro/steering/**/*.md";
                             JStr ("skill://.kiro/skills/" +:+ agent_name +:+ "/SKILL.md") ]) ].
Proof.
  unfold updated_of.
  destruct (subscript agent "prompt") as [|prompt]; [discriminate|]; rewrite result_bind_inr.
  destruct (summarize_prompt agent_name prompt) as [|brief] eqn:Hb; [discriminate|];
    rewrite result_bind_inr.
  destruct (build_mcp_servers agent_name) as [|servers]; [discriminate|];
    rewrite result_bind_inr.
  destruct (subscript agent "name") as [|name]; [discriminate|]; rewrite result_bind_inr.
  destruct (subscript agent "description") as [|description]; [discriminate|];
    rewrite result_bind_inr.
  destruct (subscript agent "tools") as [|tools]; [discriminate|]; rewrite result_bind_inr.
  destruct (subscript agent "allowedTools") as [|allowedTools]; [discriminate|];
    rewrite result_bind_inr.
  intros H. exists prompt, brief, servers, name, description, tools, allowedTools.
  split; [reflexivity|]. split; [exact Hb|]. repeat (split; [reflexivity|]).
  unfold mret, result_ret, Result.ret in H. congruence.
Qed.

Lemma updated_of_fixed (agent_name : string) (agent u : json) :
  updated_of agent_name agent = inr u →
  updated_of agent_name u = inr u ∧ ∃ doc, skill_of py_repr u = inr doc.
Proof.
  intros (prompt & brief & servers & name & description & tools & allowed
          & _ & Hb & Hs & _ & _ & _ & _ & ->)%updated_of_inv.
  split; [|eexists; reflexivity].
  unfold updated_of.
  change (subscript (JDict ?d) "prompt") with (@inr exn json brief).
  rewrite result_bind_inr, (summarize_prompt_idemp _ _ _ Hb), result_bind_inr, Hs.
  reflexivity.
Qed.

(** ** The loop over the listing *)

Lemma file_plan_rewrites (filename : string) (c : option (option json))
    (ops : list skill_op) (u : json) :
  file_plan py_repr filename c = (ops, inr (Some u)) →
  endswith filename ".json" = true
  ∧ ∃ agent doc,
      c = Some (Some agent)
      ∧ skill_of py_repr agent = inr doc
      ∧ updated_of (replace ".json" "" filename) agent = inr u
      ∧ ops = [Write (replace ".json" "" filename) doc].
Proof.
  unfold file_plan. cbv zeta.
  destruct (endswith filename ".json"); cbn [negb]; [|intros ?; simplify_eq].
  intros H. split; [reflexivity|].
  destruct c as [[agent|]|]; try (simplify_eq; fail).
  destruct (skill_of py_repr agent) as [e|doc] eqn:Hd; [simplify_eq|].
  destruct (updated_of _ agent) as [e|u'] eqn:Hu; [simplify_eq|].
  exists agent, doc. assert (u' = u) as -> by congruence.
  repeat split; congruence.
Qed.

Lemma file_plan_fixed (filename : string) (c : option (option json))
    (ops : list skill_op) (u : json) :
  file_plan py_repr filename c = (ops, inr (Some u)) →
  ∃ ops', file_plan py_repr filename (Some (Some u)) = (ops', inr (Some u)).
Proof.
  intros (He & agent & doc & _ & _ & Hu & _)%file_plan_rewrites.
  apply updated_of_fixed in Hu as [Hu [doc' Hd]].
  unfold file_plan. cbv zeta. rewrite He. cbn [negb].
  rewrite Hd, Hu. eauto.
Qed.

Lemma file_plan_skips (filename : string) (c c' : option (option json))
    (ops : list skill_op) :
  file_plan py_repr filename c = (ops, inr None) → file_plan py_repr filename c' = (ops, inr None).
Proof.
  unfold file_plan. cbv zeta.
  destruct (endswith filename ".json"); cbn [negb]; [|done].
  destruct c as [[agent|]|]; try (intros ?; simplify_eq; fail).
  destruct (skill_of py_repr agent); [intros ?; simplify_eq|].
  destruct (updated_of _ agent); intros ?; simplify_eq.
Qed.

(** A file is written only by its own iteration, and only over itself. *)
Lemma store_lookup_ne (filename g : string) (c : option json)
    (a : gmap string (option json)) :
  filename ≠ g → store filename c a !! g = a !! g.
Proof. intros Hne. destruct c; simpl; [by rewrite lookup_insert_ne|done]. Qed.

Lemma loop_plan_frame (l : list string) (a a' : gmap string (option json))
    (ops : list skill_op) (r : result ()) (g : string) :
  loop_plan py_repr l a = (a', ops, r) → g ∉ l → a' !! g = a !! g.
Proof.
  revert a a' ops r. induction l as [|f l IH]; intros a a' ops r; cbn [loop_plan].
  - intros ? _. by simplify_eq.
  - intros H [Hne Hg]%not_elem_of_cons.
    destruct (file_plan py_repr f (a !! f)) as [ops1 [e|c]]; [by simplify_eq|].
    destruct (loop_plan py_repr l (store f c a)) as [[a2 ops2] r2] eqn:Hl.
    assert (a2 = a') as -> by congruence.
    rewrite (IH _ _ _ _ Hl Hg). by apply store_lookup_ne.
Qed.

Lemma loop_plan_dom (l : list string) (a a' : gmap string (option json))
    (ops : list skill_op) (r : result ()) :
  loop_plan py_repr l a = (a', ops, r) → dom a' = dom a.
Proof.
  revert a a' ops r. induction l as [|f l IH]; intros a a' ops r; cbn [loop_plan].
  - intros ?. by simplify_eq.
  - intros H.
    destruct (file_plan py_repr f (a !! f)) as [ops1 [e|c]] eqn:Hf; [by simplify_eq|].
    destruct (loop_plan py_repr l (store f c a)) as [[a2 ops2] r2] eqn:Hl.
    assert (a2 = a') as -> by congruence.
    rewrite (IH _ _ _ _ Hl). destruct c as [u|]; [|done]. simpl.
    apply file_plan_rewrites in Hf as (_ & agent & doc & Hc & _).
    rewrite dom_insert_L. apply elem_of_dom_2 in Hc.
    apply subseteq_union_1_L. by apply singleton_subseteq_l.
Qed.

(** Running the loop again on the records it left rewrites nothing and ends
    the same way. *)
Lemma loop_plan_fixed (l : list string) (a a' : gmap string (option json))
    (ops : list skill_op) (r : result ()) :
  NoDup l → loop_plan py_repr l a = (a', ops, r) → ∃ ops', loop_plan py_repr l a' = (a', ops', r).
Proof.
  intros Hnd. revert a a' ops r.
  induction Hnd as [|f l Hf Hnd IH]; intros a a' ops r; cbn [loop_plan].
  - intros ?. simplify_eq. eauto.
  - intros H.
    destruct (file_plan py_repr f (a !! f)) as [ops1 [e|c]] eqn:Hp.
    { assert (a' = a ∧ r = inl e) as [-> ->] by (split; congruence).
      rewrite Hp. eauto. }
    destruct (loop_plan py_repr l (store f c a)) as [[a2 ops2] r2] eqn:Hl.
    assert (a2 = a' ∧ r2 = r) as [-> ->] by (split; congruence).
    pose proof (loop_plan_frame _ _ _ _ _ f Hl Hf) as Hfr.
    destruct (IH _ _ _ _ Hl) as [ops' Hl'].
    destruct c as [u|]; simpl in Hfr.
    + rewrite lookup_insert_eq in Hfr. rewrite Hfr.
      destruct (file_plan_fixed _ _ _ _ Hp) as [ops1' ->]. simpl.
      rewrite (insert_id _ _ _ Hfr), Hl'. eauto.
    + rewrite (file_plan_skips _ _ (a' !! f) _ Hp). simpl. rewrite Hl'. eauto.
Qed.

Lemma process_agents_run (st : fs) (a' : gmap string (option json))
    (ops : list skill_op) (r : result ()) :
  loop_plan py_repr (sorted (map_to_list (agents st)).*1) (agents st) = (a', ops, r) →
  process_agents py_repr st = (Fs a' (apply_ops ops (skills st)), r).
Proof. intros H. rewrite process_agents_plan, H. reflexivity. Qed.

(** C2: run the pipeline three times, each run on the directories the
    previous one left. The third run leaves the agent records and the skill
    files exactly as the second did, and ends the same way (normally or with
    the same exception). Records are compared as the values [json.dump]
    serialises, so equal records are equal byte for byte. *)
Theorem process_agents_idempotent (st : fs) :
  let run1 := process_agents py_repr st in
  let run2 := process_agents py_repr run1.1 in
  let run3 := process_agents py_repr run2.1 in
  run3 = run2.
Proof.
  cbv zeta. destruct st as [a sk].
  pose proof (sorted_listing_NoDup a) as Hnd.
  destruct (loop_plan py_repr (sorted (map_to_list a).*1) a) as [[a1 ops1] r1] eqn:H1.
  destruct (loop_plan_fixed _ _ _ _ _ Hnd H1) as [ops2 H2].
  rewrite (sorted_listing_dom a a1) in H2
    by (symmetry; exact (loop_plan_dom _ _ _ _ _ H1)).
  rewrite (process_agents_run (Fs a sk) _ _ _ H1). cbn [fst].
  rewrite (process_agents_run (Fs a1 _) _ _ _ H2). cbn [fst skills].
  rewrite (process_agents_run (Fs a1 _) _ _ _ H2). cbn [skills].
  by rewrite apply_ops_idemp.
Qed.

(** ** Files that are not records *)

Lemma StronglySorted_filter {A} (R : relation A) (P : A → Prop)
    `{∀ x, Decision (P x)} (l : list A) :
  StronglySorted R l → StronglySorted R (filter P l).
Proof.
  induction 1 as [|x l Hs IH Hx]; [constructor|].
  rewrite filter_cons. destruct (decide (P x)); [|exact IH].
  constructor; [exact IH|].
  apply Forall_forall. intros y [_ Hy]%list_elem_of_filter.
  by eapply Forall_forall in Hx.
Qed.

Lemma sorted_listing_delete {V} (a : gmap string V) (filename : string) :
  sorted (map_to_list (delete filename a)).*1
  = filter (λ g, g ≠ filename) (sorted (map_to_list a).*1).
Proof.
  apply (StronglySorted_unique String.le).
  - apply StronglySorted_merge_sort; apply _.
  - apply StronglySorted_filter, StronglySorted_merge_sort; apply _.
  - apply NoDup_Permutation.
    + apply sorted_listing_NoDup.
    + apply NoDup_filter, sorted_listing_NoDup.
    + intros k.
      rewrite list_elem_of_filter, !elem_of_sorted_listing, lookup_delete_is_Some.
      split; intros [Hne Hk]; (split; [congruence|exact Hk]).
Qed.

Lemma file_plan_not_json (filename : string) (c : option (option json)) :
  endswith filename ".json" = false → file_plan py_repr filename c = ([], inr None).
Proof. intros He. unfold file_plan. by rewrite He. Qed.

Lemma store_insert_ne (filename g : string) (c : option json) (x : option json)
    (a : gmap string (option json)) :
  filename ≠ g → store g x (<[filename := c]> a) = <[filename := c]> (store g x a).
Proof. intros Hne. destruct x; simpl; [by apply insert_insert_ne|done]. Qed.

Lemma loop_plan_skip (l : list string) (a : gmap string (option json))
    (filename : string) (c : option json) :
  endswith filename ".json" = false →
  loop_plan py_repr l (<[filename := c]> a) =
    let '(a', ops, r) := loop_plan py_repr (filter (λ g, g ≠ filename) l) a in
    (<[filename := c]> a', ops, r).
Proof.
  intros He. revert a. induction l as [|g l IH]; intros a; [reflexivity|].
  rewrite filter_cons. cbn [loop_plan].
  destruct (decide (g ≠ filename)) as [Hne|Heq].
  - cbn [loop_plan]. rewrite lookup_insert_ne by done.
    destruct (file_plan py_repr g (a !! g)) as [ops [e|x]]; [reflexivity|].
    rewrite store_insert_ne by done. rewrite IH.
    by destruct (loop_plan py_repr _ (store g x a)) as [[a' ops'] r].
  - apply dec_stable in Heq as ->.
    rewrite file_plan_not_json by done. simpl. rewrite IH.
    by destruct (loop_plan py_repr _ a) as [[a' ops'] r].
Qed.

(** C9: a file of the agents directory whose name does not end in ".json"
    is skipped. The run equals the run on the directory without that file,
    with the file put back as it was: its content plays no part (it is not
    read), it is left unchanged (not rewritten), and the skills directory
    gets nothing on its account. *)
Theorem process_agents_skips_other_files (st : fs) (filename : string)
    (c : option json) :
  endswith filename ".json" = false →
  agents st !! filename = Some c →
  process_agents py_repr st =
    let '(st', r) := process_agents py_repr (Fs (delete filename (agents st)) (skills st)) in
    (Fs (<[filename := c]> (agents st')) (skills st'), r).
Proof.
  intros He Hc. destruct st as [a sk]. cbn [agents skills] in *.
  destruct (loop_plan py_repr (sorted (map_to_list (delete filename a)).*1) (delete filename a))
    as [[a' ops] r] eqn:Hl.
  rewrite (process_agents_run (Fs (delete filename a) sk) _ _ _ Hl).
  cbv beta iota. cbn [agents skills].
  apply (process_agents_run (Fs a sk)). cbn [agents skills].
  rewrite <- (insert_delete_id a filename c Hc) at 2.
  rewrite loop_plan_skip by done.
  rewrite <- sorted_listing_delete, Hl. reflexivity.
Qed.

(** ** The rewritten records *)

Lemma updated_of_rewritten (agent_name : string) (agent u : json) :
  updated_of agent_name agent = inr u → rewritten_record agent_name agent u.
Proof.
  intros (prompt & brief & servers & name & description & tools & allowed
          & ? & ? & ? & ? & ? & ? & ? & ->)%updated_of_inv.
  exists name, description, tools, allowed, prompt, brief, servers.
  repeat (split; [assumption|]). reflexivity.
Qed.

Lemma file_plan_json_ok (filename : string) (c : option (option json))
    (ops : list skill_op) (x : option json) :
  endswith filename ".json" = true →
  file_plan py_repr filename c = (ops, inr x) → ∃ u, x = Some u.
Proof.
  intros He. unfold file_plan. cbv zeta. rewrite He. cbn [negb].
  destruct c as [[agent|]|]; try (intros ?; simplify_eq; fail).
  destruct (skill_of py_repr agent); [intros ?; simplify_eq|].
  destruct (updated_of _ agent) as [|u]; intros ?; simplify_eq. eauto.
Qed.

Lemma loop_plan_lookup (l : list string) (a a' : gmap string (option json))
    (ops : list skill_op) (r : result ()) (filename : string) :
  NoDup l → loop_plan py_repr l a = (a', ops, r) →
  a' !! filename = a !! filename
  ∨ ∃ agent u,
      endswith filename ".json" = true
      ∧ a !! filename = Some (Some agent)
      ∧ updated_of (replace ".json" "" filename) agent = inr u
      ∧ a' !! filename = Some (Some u).
Proof.
  intros Hnd. revert a a' ops r.
  induction Hnd as [|g l Hg Hnd IH]; intros a a' ops r; cbn [loop_plan].
  - intros ?. simplify_eq. by left.
  - intros H.
    destruct (file_plan py_repr g (a !! g)) as [ops1 [e|c]] eqn:Hp.
    { assert (a' = a) as -> by congruence. by left. }
    destruct (loop_plan py_repr l (store g c a)) as [[a2 ops2] r2] eqn:Hl.
    assert (a2 = a') as -> by congruence.
    destruct (decide (g = filename)) as [->|Hne].
    + rewrite (loop_plan_frame _ _ _ _ _ filename Hl Hg).
      destruct c as [u|]; [|by left]. right.
      apply file_plan_rewrites in Hp as (He & agent & doc & Hc & _ & Hu & _).
      exists agent, u. simpl. by rewrite lookup_insert_eq.
    + destruct (IH _ _ _ _ Hl) as [E|(agent & u & He & Hc & Hu & Hw)].
      * left. rewrite E. by apply store_lookup_ne.
      * right. exists agent, u. rewrite store_lookup_ne in Hc by done. done.
Qed.

Lemma loop_plan_completed (l : list string) (a a' : gmap string (option json))
    (ops : list skill_op) (filename : string) :
  NoDup l → loop_plan py_repr l a = (a', ops, inr ()) →
  filename ∈ l → endswith filename ".json" = true →
  ∃ agent u,
    a !! filename = Some (Some agent)
    ∧ updated_of (replace ".json" "" filename) agent = inr u
    ∧ a' !! filename = Some (Some u).
Proof.
  intros Hnd. revert a a' ops.
  induction Hnd as [|g l Hg Hnd IH]; intros a a' ops; cbn [loop_plan].
  - by intros _ ?%elem_of_nil.
  - intros H Hin He.
    destruct (file_plan py_repr g (a !! g)) as [ops1 [e|c]] eqn:Hp; [simplify_eq|].
    destruct (loop_plan py_repr l (store g c a)) as [[a2 ops2] r2] eqn:Hl.
    assert (a2 = a' ∧ r2 = inr ()) as [-> ->] by (split; congruence).
    destruct (decide (g = filename)) as [->|Hne].
    + destruct (file_plan_json_ok _ _ _ _ He Hp) as [u ->].
      apply file_plan_rewrites in Hp as (_ & agent & doc & Hc & _ & Hu & _).
      exists agent, u. rewrite (loop_plan_frame _ _ _ _ _ filename Hl Hg).
      simpl. by rewrite lookup_insert_eq.
    + apply elem_of_cons in Hin as [->|Hin]; [done|].
      destruct (IH _ _ _ Hl Hin He) as (agent & u & Hc & Hu & Hw).
      exists agent, u. rewrite store_lookup_ne in Hc by done. done.
Qed.

(** C4: after a run, every file of the agents directory is either as it
    was or holds the rewritten record: exactly the fields name, description,
    tools, allowedTools (all four as loaded), prompt (the summarized one),
    includeMcpJson (false), mcpServers (the resolved mapping) and resources
    (the steering glob, then the reference to the agent's SKILL.md), in this
    order. When the run ends normally, every file whose name ends in ".json"
    holds such a record. *)
Theorem rewritten_record_fields (st st' : fs) (r : result ()) (filename : string)
    (c : option json) :
  process_agents py_repr st = (st', r) →
  agents st !! filename = Some c →
  let rewritten :=
    endswith filename ".json" = true
    ∧ ∃ agent u,
        c = Some agent
        ∧ rewritten_record (replace ".json" "" filename) agent u
        ∧ agents st' !! filename = Some (Some u) in
  (agents st' !! filename = Some c ∨ rewritten)
  ∧ (r = inr () → endswith filename ".json" = true → rewritten).
Proof.
  intros Hrun Hc. cbv zeta.
  destruct (loop_plan py_repr (sorted (map_to_list (agents st)).*1) (agents st))
    as [[a' ops] r'] eqn:Hl.
  rewrite (process_agents_run _ _ _ _ Hl) in Hrun.
  assert (st' = Fs a' (apply_ops ops (skills st)) ∧ r' = r) as [-> ->]
    by (split; congruence).
  cbn [agents]. pose proof (sorted_listing_NoDup (agents st)) as Hnd. split.
  - destruct (loop_plan_lookup _ _ _ _ _ filename Hnd Hl)
      as [E|(agent & u & He & Ha & Hu & Hw)].
    + left. by rewrite E.
    + right. split; [exact He|]. exists agent, u.
      split; [congruence|]. split; [by apply updated_of_rewritten|exact Hw].
  - intros -> He. split; [exact He|].
    assert (filename ∈ sorted (map_to_list (agents st)).*1) as Hin
      by (apply elem_of_sorted_listing; eauto).
    destruct (loop_plan_completed _ _ _ _ filename Hnd Hl Hin He)
      as (agent & u & Ha & Hu & Hw).
    exists agent, u. split; [congruence|].
    split; [by apply updated_of_rewritten|exact Hw].
Qed.

(** ** The documentation file *)

Lemma app_cons (c : ascii) (s t : string) : String c s +:+ t = String c (s +:+ t).
Proof. reflexivity. Qed.

Lemma app_assoc_str (s t u : string) : (s +:+ t) +:+ u = s +:+ (t +:+ u).
Proof.
  induction s as [|c s IH]; [reflexivity|]. rewrite !app_cons. by f_equal.
Qed.

Lemma prefix_app (s t : string) : String.prefix s (s +:+ t) = true.
Proof.
  induction s as [|c s IH]; [by destruct t|]. rewrite app_cons. simpl.
  destruct (ascii_dec c c); [exact IH|done].
Qed.

Lemma contains_prefix (sub s : string) : String.prefix sub s = true → contains sub s = true.
Proof. intros H. destruct s; cbn [contains]; rewrite H; reflexivity. Qed.

Lemma contains_app_r (sub a s : string) :
  contains sub s = true → contains sub (a +:+ s) = true.
Proof.
  intros H. induction a as [|c a IH]; [exact H|].
  rewrite app_cons. cbn [contains]. rewrite IH. apply orb_true_r.
Qed.

Lemma contains_middle (sub a b : string) : contains sub (a +:+ sub +:+ b) = true.
Proof. apply contains_app_r, contains_prefix, prefix_app. Qed.

(** C7: the iteration for a record whose prompt is the text [prompt] writes,
    as SKILL.md of the agent's directory, a header block made of the name
    and the description followed by the prompt and a final newline; the
    prompt is a contiguous part of that text. *)
Theorem skill_md_holds_prompt (filename : string) (st : fs)
    (agent name description : json) (prompt : string) :
  agents st !! filename = Some (Some agent) →
  subscript agent "name" = inr name →
  subscript agent "description" = inr description →
  subscript agent "prompt" = inr (JStr prompt) →
  let header :=
    "---" +:+ nl +:+
    "name: " +:+ format py_repr name +:+ nl +:+
    "description: " +:+ format py_repr description +:+ nl +:+
    "---" +:+ nl +:+
    nl in
  let doc := generate_skill_md py_repr name description (JStr prompt) in
  skills (process_file py_repr filename st).1 !! replace ".json" "" filename = Some (Some doc)
  ∧ doc = header +:+ prompt +:+ nl
  ∧ contains prompt doc = true.
Proof.
  intros Hf Hn Hd Hp header doc.
  assert (doc = header +:+ prompt +:+ nl) as Hdoc.
  { unfold doc, header, generate_skill_md. cbn [format].
    by rewrite !app_assoc_str. }
  split; [|split; [exact Hdoc|rewrite Hdoc; apply contains_middle]].
  rewrite process_file_unfold, Hf. cbv zeta.
  unfold skill_of. rewrite Hn, Hd, Hp, !result_bind_inr.
  unfold mret, result_ret, Result.ret. fold doc.
  destruct (updated_of _ agent); cbn [fst skills]; apply lookup_insert_eq.
Qed.

End process_facts.

(** ** The prompt summarizer *)





(** ** The agent identifier *)

Lemma length_app (s t : string) :
  String.length (s +:+ t) = String.length s + String.length t.
Proof. induction s as [|c s IH]; [reflexivity|]. rewrite app_cons. simpl. by rewrite IH. Qed.

Lemma app_nil_r_str (s : string) : s +:+ "" = s.
Proof. induction s as [|c s IH]; [reflexivity|]. rewrite app_cons. by f_equal. Qed.

Lemma prefix_true_app (a s : string) : String.prefix a s = true → ∃ t, s = a +:+ t.
Proof.
  revert s. induction a as [|c a IH]; intros s H; [by exists s|].
  destruct s as [|c' s]; [discriminate|]. simpl in H.
  destruct (ascii_dec c c') as [->|]; [|discriminate].
  destruct (IH _ H) as [t ->]. by exists t.
Qed.


(** The two equations of the left-to-right scan for ".json". *)
Lemma replace_json_match (s : string) :
  replace ".json" "" (".json" +:+ s) = replace ".json" "" s.
Proof. by destruct s. Qed.

Lemma replace_json_other (c : ascii) (s : string) :
  String.prefix ".json" (String c s) = false →
  replace ".json" "" (String c s) = String c (replace ".json" "" s).
Proof. unfold replace. cbn [replace_from]. by intros ->. Qed.

(** No occurrence of ".json" straddles the point where a "." follows. *)
Lemma prefix_json_app_dot (c : ascii) (s1 s2 : string) :
  String.prefix ".json" (String c s1) = false →
  String.prefix ".json" (String c s1 +:+ String "." s2) = false.
Proof.
  intros H.
  destruct s1 as [|c2 [|c3 [|c4 [|c5 s1]]]]; rewrite ?app_cons; simpl in *;
    repeat (match goal with
            | |- context [ascii_dec ?a ?b] => destruct (ascii_dec a b) as [?|?]
            | H : context [ascii_dec ?a ?b] |- _ => destruct (ascii_dec a b) as [?|?]
            end; simplify_eq; try done).
  all: match goal with s : string |- _ => by destruct s end.
Qed.

Lemma replace_json_app_dot (s1 s2 : string) :
  replace ".json" "" (s1 +:+ String "." s2)
  = replace ".json" "" s1 +:+ replace ".json" "" (String "." s2).
Proof.
  remember (String.length s1) as n eqn:Hn. revert s1 Hn.
  induction (lt_wf n) as [n _ IH]. intros s1 Hn.
  destruct s1 as [|c s1]; [reflexivity|].
  destruct (String.prefix ".json" (String c s1)) eqn:Hp.
  - apply prefix_true_app in Hp as [t Ht]. rewrite Ht, app_assoc_str.
    rewrite !replace_json_match. apply (IH (String.length t)); [|reflexivity].
    rewrite Hn, Ht, length_app. simpl. lia.
  - rewrite (replace_json_other _ _ Hp), !app_cons.
    rewrite replace_json_other.
    2: { change (String c (s1 +:+ String "." s2)) with (String c s1 +:+ String "." s2).
         by apply prefix_json_app_dot. }
    f_equal. apply (IH (String.length s1)); [|reflexivity]. rewrite Hn. simpl. lia.
Qed.




(** ** Sharing between the mappings of two agents *)

(** On the tables as loaded, the resolver with objects and references
    returns a mapping that reads as the value the resolver on values
    returns. *)
Lemma heap_build_mcp_servers_reads (agent_name : string) :
  ∃ table h0 servers_ref h servers,
    Heap.boot [] = inr (table, h0)
    ∧ Heap.build_mcp_servers table agent_name h0 = inr (servers_ref, h)
    ∧ build_mcp_servers agent_name = inr servers
    ∧ Heap.read (S (length h)) h (Heap.Ref servers_ref)
      = Some (JDict (prod_map id JDict <$> servers)).
Proof.
  unfold Heap.build_mcp_servers, build_mcp_servers.
  pose proof (extra_mcps_cases agent_name) as H.
  generalize dependent (dict_get_default AGENT_MCPS agent_name []).
  intros extras H.
  each_extra_list H; do 5 eexists; (split; [vm_compute; reflexivity|]);
    (split; [vm_compute; reflexivity|]); (split; [vm_compute; reflexivity|]);
    vm_compute; reflexivity.
Qed.

(** C5, on the code: [.copy()] copies the descriptor dict but not the list
    under "args". After "code-reviewer" and "linux-specialist" are resolved,
    appending to the "args" of the first agent's "filesystem" descriptor
    shows in the second agent's descriptor and in [MCP_SERVERS]. *)
Theorem args_list_is_shared :
  ∃ other_before other_after table_before table_after h,
    Heap.two_agents "code-reviewer" "linux-specialist"
      (Heap.append_arg "filesystem" "extra") []
    = inr (((other_before, other_after), (table_before, table_after)), h)
    ∧ (subscript other_before "filesystem" ≫= λ d, subscript d "args")
      = inr (JList [JStr "-y"; JStr "@modelcontextprotocol/server-filesystem";
                    JStr "$HOME"])
    ∧ (subscript other_after "filesystem" ≫= λ d, subscript d "args")
      = inr (JList [JStr "-y"; JStr "@modelcontextprotocol/server-filesystem";
                    JStr "$HOME"; JStr "extra"])
    ∧ (subscript table_before "filesystem" ≫= λ d, subscript d "args")
      = inr (JList [JStr "-y"; JStr "@modelcontextprotocol/server-filesystem";
                    JStr "$HOME"])
    ∧ (subscript table_after "filesystem" ≫= λ d, subscript d "args")
      = inr (JList [JStr "-y"; JStr "@modelcontextprotocol/server-filesystem";
                    JStr "$HOME"; JStr "extra"]).
Proof. do 5 eexists. split; [vm_compute; reflexivity|]. by repeat split. Qed.

(** What the copies do keep apart: a field of a descriptor, and the
    environment mapping of an extra server, which the loop copies. *)
Lemma descriptor_fields_are_private :
  ∃ other table h,
    Heap.two_agents "code-reviewer" "linux-specialist"
      (Heap.set_field "filesystem" "command" "other") []
    = inr (((other, other), (table, table)), h).
Proof. do 3 eexists. vm_compute. reflexivity. Qed.

Lemma env_mapping_is_private :
  ∃ other table h,
    Heap.two_agents "data-scientist" "python-backend"
      (Heap.set_env "dynamodb" "AWS_REGION" "us-east-1") []
    = inr (((other, other), (table, table)), h).
Proof. do 3 eexists. vm_compute. reflexivity. Qed.

(** ** The theorems at the small instance *)


Lemma process_agents_skips_other_files_witness :
  endswith "README.md" ".json" = false
  ∧ agents example_fs !! "README.md" = Some None
  ∧ process_agents example_repr example_fs =
      let '(st', r) :=
        process_agents example_repr
          (Fs (delete "README.md" (agents example_fs)) (skills example_fs)) in
      (Fs (<["README.md" := None]> (agents st')) (skills st'), r).
Proof.
  split; [reflexivity|]. split; [vm_compute; reflexivity|].
  apply (process_agents_skips_other_files example_repr example_fs "README.md" None);
    [reflexivity|vm_compute; reflexivity].
Defined.

Lemma rewritten_record_fields_witness :
  let st' := (process_agents example_repr example_fs).1 in
  let r := (process_agents example_repr example_fs).2 in
  let c := Some (example_record "helper" "Help with anything.") in
  process_agents example_repr example_fs = (st', r)
  ∧ agents example_fs !! "helper.json" = Some c
  ∧ let rewritten :=
      endswith "helper.json" ".json" = true
      ∧ ∃ agent u,
          c = Some agent
          ∧ rewritten_record (replace ".json" "" "helper.json") agent u
          ∧ agents st' !! "helper.json" = Some (Some u) in
    (agents st' !! "helper.json" = Some c ∨ rewritten)
    ∧ (r = inr () → endswith "helper.json" ".json" = true → rewritten).
Proof.
  intros st' r c.
  assert (process_agents example_repr example_fs = (st', r)) as Hrun
    by (vm_compute; reflexivity).
  assert (agents example_fs !! "helper.json" = Some c) as Hc
    by (vm_compute; reflexivity).
  split; [exact Hrun|]. split; [exact Hc|].
  exact (rewritten_record_fields example_repr example_fs st' r "helper.json" c Hrun Hc).
Defined.

Lemma skill_md_holds_prompt_witness :
  let agent := example_record "helper" "Help with anything." in
  agents example_fs !! "helper.json" = Some (Some agent)
  ∧ subscript agent "name" = inr (JStr "helper")
  ∧ subscript agent "description" = inr (JStr "An example agent")
  ∧ subscript agent "prompt" = inr (JStr "Help with anything.")
  ∧ let header :=
      "---" +:+ nl +:+
      "name: " +:+ format example_repr (JStr "helper") +:+ nl +:+
      "description: " +:+ format example_repr (JStr "An example agent") +:+ nl +:+
      "---" +:+ nl +:+
      nl in
    let doc :=
      generate_skill_md example_repr (JStr "helper") (JStr "An example agent")
        (JStr "Help with anything.") in
    skills (process_file example_repr "helper.json" example_fs).1
      !! replace ".json" "" "helper.json" = Some (Some doc)
    ∧ doc = header +:+ "Help with anything." +:+ nl
    ∧ contains "Help with anything." doc = true.
Proof.
  intros agent.
  assert (agents example_fs !! "helper.json" = Some (Some agent)) as Hf
    by (vm_compute; reflexivity).
  split; [exact Hf|]. do 3 (split; [reflexivity|]).
  exact (skill_md_holds_prompt example_repr "helper.json" example_fs agent
           (JStr "helper") (JStr "An example agent") "Help with anything."
           Hf eq_refl eq_refl eq_refl).
Defined.


(** ** Further facts at the small instance *)

(** The two file names of the claim about the identifier. *)
Example agent_name_examples :
  replace ".json" "" "a.json.json" = "a"
  ∧ replace ".json" "" "a.jsonx.json" = "ax"
  ∧ replace ".json" "" "code-reviewer.json" = "code-reviewer".
Proof. by repeat split. Qed.

(** The first run and the second differ: the second run reads the record
    the first one wrote, so SKILL.md of "code-reviewer" then holds the brief
    prompt in place of the original one. *)
Example second_run_rewrites_skill :
  let run1 := process_agents example_repr example_fs in
  let run2 := process_agents example_repr run1.1 in
  skills run1.1 !! "code-reviewer"
  = Some (Some (generate_skill_md example_repr (JStr "code-reviewer")
                  (JStr "An example agent") (JStr "Review the change.")))
  ∧ skills run2.1 !! "code-reviewer"
    = Some (Some (generate_skill_md example_repr (JStr "code-reviewer")
                    (JStr "An example agent")
                    (from_option JStr JNull (dict_get BRIEF_PROMPTS "code-reviewer")))).
Proof. split; vm_compute; reflexivity. Qed.

(** Two file names with one identifier share one SKILL.md: the file sorted
    last wins. *)
Example identifier_collision :
  let st :=
    Fs (<["a.json" := Some (example_record "first" "First prompt.")]>
          (<["a.json.json" := Some (example_record "second" "Second prompt.")]> ∅))
       ∅ in
  map_to_list (skills (process_agents example_repr st).1)
  = [("a", Some (generate_skill_md example_repr (JStr "second")
                   (JStr "An example agent") (JStr "Second prompt.")))].
Proof. vm_compute. reflexivity. Qed.

(** * Further properties of the script *)

(** ** The resolver on every identifier *)


Lemma build_mcp_servers_returns (agent_name : string) :
  ∃ servers,
    build_mcp_servers agent_name = inr servers
    ∧ keys servers
      = (["filesystem"; "memory"] ++ dict_get_default AGENT_MCPS agent_name [])%list.
Proof.
  unfold build_mcp_servers.
  pose proof (extra_mcps_cases agent_name) as H.
  generalize dependent (dict_get_default AGENT_MCPS agent_name []).
  intros extras H.
  each_extra_list H; eexists; (split; [vm_compute; reflexivity|reflexivity]).
Qed.

(** Whatever the identifier, each server of the resolved mapping carries the
    descriptor [MCP_SERVERS] has under that name: command, arguments and,
    where the table has one, the environment, all unchanged. *)
Theorem build_mcp_servers_descriptors (agent_name : string) :
  ∃ servers,
    build_mcp_servers agent_name = inr servers
    ∧ Forall (λ kv, dict_get MCP_SERVERS kv.1 = Some kv.2) servers.
Proof.
  unfold build_mcp_servers.
  pose proof (extra_mcps_cases agent_name) as H.
  generalize dependent (dict_get_default AGENT_MCPS agent_name []).
  intros extras H.
  each_extra_list H; eexists; (split; [vm_compute; reflexivity|repeat constructor]).
Qed.

(** ** The summarized prompt *)



Lemma slice200_raises (prompt : json) :
  (∀ s, prompt ≠ JStr s) → (∀ l, prompt ≠ JList l) →
  slice200 prompt = inl TypeError.
Proof.
  intros Hs Hl.
  destruct prompt; try reflexivity; [by destruct (Hs s)|by destruct (Hl l)].
Qed.

(** A prompt that is neither a string nor a list cannot be sliced, and the
    slice is taken before the table is consulted: the summarizer raises
    [TypeError] even for an identifier that has a curated brief. *)
Theorem summarize_prompt_unsliceable (agent_name : string) (prompt : json) :
  (∀ s, prompt ≠ JStr s) → (∀ l, prompt ≠ JList l) →
  summarize_prompt agent_name prompt = inl TypeError.
Proof.
  intros Hs Hl. unfold summarize_prompt. by rewrite (slice200_raises _ Hs Hl).
Qed.

Lemma summarize_prompt_unsliceable_witness :
  (∀ s, JInt 5 ≠ JStr s) ∧ (∀ l, JInt 5 ≠ JList l)
  ∧ summarize_prompt "code-reviewer" (JInt 5) = inl TypeError.
Proof.
  split; [discriminate|]. split; [discriminate|].
  apply (summarize_prompt_unsliceable "code-reviewer" (JInt 5)); discriminate.
Defined.

(** ** The identifier of ordinary file names *)

Lemma replace_json_absent (s : string) :
  contains ".json" s = false → replace ".json" "" s = s.
Proof.
  induction s as [|c s IH]; [reflexivity|]. cbn [contains].
  intros [Hp Hc]%orb_false_elim.
  rewrite (replace_json_other _ _ Hp). f_equal. by apply IH.
Qed.

(** For a file name [stem.json] whose stem has no ".json" inside, the
    identifier is the stem. *)
Theorem agent_name_of_plain_stem (stem : string) :
  contains ".json" stem = false →
  replace ".json" "" (stem +:+ ".json") = stem.
Proof.
  intros Hc. rewrite replace_json_app_dot, (replace_json_absent _ Hc).
  change (replace ".json" "" ".json") with "". apply app_nil_r_str.
Qed.

Lemma agent_name_of_plain_stem_witness :
  contains ".json" "python-backend" = false
  ∧ replace ".json" "" ("python-backend" +:+ ".json") = "python-backend".
Proof.
  split; [reflexivity|]. exact (agent_name_of_plain_stem "python-backend" eq_refl).
Defined.

(** Appending ".json" to a file name does not change the identifier: the
    files [f] and [f.json] of one directory are two records of one agent,
    with one SKILL.md and one resource locator between them. *)
Theorem agent_name_ignores_added_suffix (filename : string) :
  replace ".json" "" (filename +:+ ".json") = replace ".json" "" filename.
Proof.
  rewrite replace_json_app_dot.
  change (replace ".json" "" ".json") with "". apply app_nil_r_str.
Qed.

(** ** What a run does to the two directories *)

Lemma process_file_outcome (py_repr : json → string) (filename : string) (st : fs) :
  endswith filename ".json" = true →
  (process_file py_repr filename st).2
  = outcome (file_plan py_repr filename (agents st !! filename)).2.
Proof.
  intros He. destruct st as [a sk].
  pose proof (body_plan py_repr filename a sk) as H. rewrite He in H.
  cbn [negb] in H. rewrite H. cbn [agents].
  by destruct (file_plan py_repr filename (a !! filename)) as [ops r].
Qed.

Lemma act_is_Some (e : effect) (x : option (option string)) :
  is_Some x → is_Some (act e x).
Proof. intros [c ->]. destruct e; simpl; eauto. Qed.

Lemma act_keeps_file (e : effect) (x : option (option string)) (doc : string) :
  x = Some (Some doc) → ∃ doc', act e x = Some (Some doc').
Proof. intros ->. destruct e; simpl; eauto. Qed.

(** A run neither adds nor removes a file of the agents directory, and it
    removes nothing from the skills directory: every directory that was
    there is still there, and one that had a SKILL.md still has one. *)
Theorem process_agents_keeps_entries (py_repr : json → string) (st : fs) :
  let st' := (process_agents py_repr st).1 in
  dom (agents st') = dom (agents st)
  ∧ dom (skills st) ⊆ dom (skills st')
  ∧ ∀ d doc, skills st !! d = Some (Some doc) →
             ∃ doc', skills st' !! d = Some (Some doc').
Proof.
  cbv zeta.
  destruct (loop_plan py_repr (sorted (map_to_list (agents st)).*1) (agents st))
    as [[a' ops] r] eqn:Hl.
  rewrite (process_agents_run _ _ _ _ _ Hl). cbn [fst agents skills].
  split; [exact (loop_plan_dom _ _ _ _ _ _ Hl)|]. split.
  - intros d. rewrite !elem_of_dom, lookup_apply_ops. apply act_is_Some.
  - intros d doc Hd. rewrite lookup_apply_ops. by eapply act_keeps_file.
Qed.


Lemma loop_plan_returns_iff (py_repr : json → string) (l : list string)
    (a : gmap string (option json)) :
  NoDup l →
  (loop_plan py_repr l a).2 = inr ()
  ↔ ∀ f, f ∈ l → ∃ ops c, file_plan py_repr f (a !! f) = (ops, inr c).
Proof.
  intros Hnd. revert a. induction Hnd as [|g l Hg Hnd IH]; intros a.
  - split; [by intros _ f ?%elem_of_nil|reflexivity].
  - cbn [loop_plan].
    destruct (file_plan py_repr g (a !! g)) as [ops1 [e|c]] eqn:Hp.
    + split; [discriminate|]. intros H.
      destruct (H g) as (ops & c & E); [left|]. congruence.
    + destruct (loop_plan py_repr l (store g c a)) as [[a2 ops2] r2] eqn:Hl.
      cbn [snd]. specialize (IH (store g c a)). rewrite Hl in IH. cbn [snd] in IH.
      rewrite IH. split.
      * intros H f [->|Hf]%elem_of_cons; [eauto|].
        destruct (H f Hf) as (ops & c' & E). exists ops, c'.
        rewrite store_lookup_ne in E; [exact E|]. by intros ->.
      * intros H f Hf. destruct (H f) as (ops & c' & E); [by right|].
        exists ops, c'. rewrite store_lookup_ne; [exact E|]. by intros ->.
Qed.


(** ** One iteration: when it returns and how it fails *)



Lemma summarize_prompt_sliceable (agent_name : string) (prompt : json) :
  (∃ s, prompt = JStr s) ∨ (∃ l, prompt = JList l) →
  ∃ brief, summarize_prompt agent_name prompt = inr brief.
Proof. intros [[s ->]|[l ->]]; eexists; reflexivity. Qed.


Lemma makedirs_state (skill_dir : string) (st : fs) :
  (makedirs skill_dir st).1 = Fs (agents st) (with_dir skill_dir (skills st)).
Proof.
  unfold makedirs, with_dir. destruct st as [a sk]. cbn [agents skills].
  by destruct (sk !! skill_dir).
Qed.

(** A file that [json.load] rejects stops the iteration before anything is
    touched: no directory is made for it. *)
Theorem process_file_invalid_json (py_repr : json → string) (filename : string) (st : fs) :
  agents st !! filename = Some None →
  process_file py_repr filename st = (st, inl JSONDecodeError).
Proof. intros Hc. by rewrite process_file_unfold, Hc. Qed.

(** A JSON document that is not an object (a list, a string, a number)
    raises [TypeError] at the first subscript, after the agent's skill
    directory has been made: the directory is left behind without a
    SKILL.md (unless it had one), and the record is untouched. *)
Theorem process_file_not_object (py_repr : json → string) (filename : string)
    (st : fs) (agent : json) :
  agents st !! filename = Some (Some agent) →
  (∀ d, agent ≠ JDict d) →
  process_file py_repr filename st
  = ((makedirs (replace ".json" "" filename) st).1, inl TypeError).
Proof.
  intros Hc Hd. rewrite process_file_unfold, Hc, makedirs_state. cbv zeta.
  unfold skill_of. destruct agent; try reflexivity. by destruct (Hd d).
Qed.

(** An object that lacks name, description or prompt raises [KeyError] for
    the first of these three that is missing, again after the skill
    directory has been made and before SKILL.md is written. *)
Theorem process_file_missing_key (py_repr : json → string) (filename : string)
    (st : fs) (d : list (string * json)) (k : string) (rest : list string) :
  agents st !! filename = Some (Some (JDict d)) →
  filter (λ k, dict_mem d k = false) ["name"; "description"; "prompt"] = k :: rest →
  process_file py_repr filename st
  = ((makedirs (replace ".json" "" filename) st).1, inl (KeyError k)).
Proof.
  intros Hc Hk. rewrite process_file_unfold, Hc, makedirs_state. cbv zeta.
  unfold skill_of. cbn [subscript]. unfold getitem, dict_mem in *.
  cbn in Hk.
  destruct (dict_get d "name") as [name|] eqn:En;
    destruct (dict_get d "description") as [description|] eqn:Ed;
    destruct (dict_get d "prompt") as [prompt|] eqn:Ep;
    repeat case_decide; by simplify_eq.
Qed.

(** With name, description and prompt present, SKILL.md is written first.
    A prompt that cannot be sliced then raises [TypeError]: the agent has
    its SKILL.md, the record is as it was. *)
Theorem process_file_unsliceable_prompt (py_repr : json → string) (filename : string)
    (st : fs) (agent name description prompt : json) :
  agents st !! filename = Some (Some agent) →
  subscript agent "name" = inr name →
  subscript agent "description" = inr description →
  subscript agent "prompt" = inr prompt →
  (∀ s, prompt ≠ JStr s) → (∀ l, prompt ≠ JList l) →
  process_file py_repr filename st
  = (Fs (agents st)
        (<[replace ".json" "" filename
           := Some (generate_skill_md py_repr name description prompt)]> (skills st)),
     inl TypeError).
Proof.
  intros Hc Hn Hd Hp Hs Hl. rewrite process_file_unfold, Hc. cbv zeta.
  unfold skill_of, updated_of. rewrite Hn, Hd, Hp, !result_bind_inr.
  unfold mret at 1. unfold result_ret, Result.ret.
  unfold summarize_prompt. by rewrite (slice200_raises _ Hs Hl).
Qed.

(** With a prompt that can be sliced, a record that lacks tools or
    allowedTools raises [KeyError] for the first of the two that is
    missing, after SKILL.md has been written and with the record as it
    was. *)
Theorem process_file_missing_tools (py_repr : json → string) (filename : string)
    (st : fs) (d : list (string * json)) (name description prompt : json)
    (k : string) (rest : list string) :
  agents st !! filename = Some (Some (JDict d)) →
  dict_get d "name" = Some name →
  dict_get d "description" = Some description →
  dict_get d "prompt" = Some prompt →
  (∃ s, prompt = JStr s) ∨ (∃ l, prompt = JList l) →
  filter (λ k, dict_mem d k = false) ["tools"; "allowedTools"] = k :: rest →
  process_file py_repr filename st
  = (Fs (agents st)
        (<[replace ".json" "" filename
           := Some (generate_skill_md py_repr name description prompt)]> (skills st)),
     inl (KeyError k)).
Proof.
  intros Hc Hn Hd Hp Hs Hk. rewrite process_file_unfold, Hc. cbv zeta.
  destruct (summarize_prompt_sliceable (replace ".json" "" filename) prompt Hs)
    as [brief Hb].
  destruct (build_mcp_servers_returns (replace ".json" "" filename))
    as (servers & Hbuild & _).
  unfold skill_of, updated_of. cbn [subscript]. unfold getitem, dict_mem in *.
  rewrite Hn, Hd, Hp. unfold Result.ret.
  rewrite !result_bind_inr, Hb, result_bind_inr, Hbuild, !result_bind_inr.
  unfold mret at 1. unfold result_ret, Result.ret.
  cbn in Hk.
  destruct (dict_get d "tools") as [tools|] eqn:Et;
    destruct (dict_get d "allowedTools") as [allowed|] eqn:Ea;
    repeat case_decide; by simplify_eq.
Qed.

(** ** A run that fails *)

Lemma loop_plan_app (py_repr : json → string) (l1 l2 : list string)
    (a : gmap string (option json)) :
  loop_plan py_repr (l1 ++ l2) a =
    match loop_plan py_repr l1 a with
    | (a1, ops1, inl e) => (a1, ops1, inl e)
    | (a1, ops1, inr _) =>
        let '(a2, ops2, r) := loop_plan py_repr l2 a1 in (a2, (ops1 ++ ops2)%list, r)
    end.
Proof.
  revert a. induction l1 as [|g l1 IH]; intros a.
  - cbn [app loop_plan]. by destruct (loop_plan py_repr l2 a) as [[a2 ops2] r].
  - cbn [app loop_plan].
    destruct (file_plan py_repr g (a !! g)) as [ops [e|c]]; [reflexivity|].
    rewrite IH.
    destruct (loop_plan py_repr l1 (store g c a)) as [[a1 ops1] [e|[]]];
      [reflexivity|].
    destruct (loop_plan py_repr l2 a1) as [[a2 ops2] r].
    by rewrite app_assoc.
Qed.

Lemma process_file_raises (py_repr : json → string) (filename : string) (st : fs)
    (e : exn) :
  endswith filename ".json" = true →
  (process_file py_repr filename st).2 = inl e →
  ∃ ops, file_plan py_repr filename (agents st !! filename) = (ops, inl e).
Proof.
  intros He. rewrite process_file_outcome by done.
  destruct (file_plan py_repr filename (agents st !! filename)) as [ops [e'|c]];
    [|discriminate].
  cbn [snd outcome]. intros [= ->]. eauto.
Qed.

Lemma process_file_ok (py_repr : json → string) (filename : string) (st : fs) :
  endswith filename ".json" = true →
  (process_file py_repr filename st).2 = inr () →
  ∃ ops c, file_plan py_repr filename (agents st !! filename) = (ops, inr c).
Proof.
  intros He. rewrite process_file_outcome by done.
  destruct (file_plan py_repr filename (agents st !! filename)) as [ops [e'|c]];
    [discriminate|eauto].
Qed.

(** The files are taken in sorted order and the first one whose iteration
    raises ends the run with its exception. Every file name that sorts at
    or after it is left exactly as it was; every record before it has been
    rewritten. *)
Theorem process_agents_stops_at_first_failure (py_repr : json → string) (st : fs)
    (filename : string) (e : exn) :
  is_Some (agents st !! filename) →
  endswith filename ".json" = true →
  (process_file py_repr filename st).2 = inl e →
  (∀ g, is_Some (agents st !! g) → endswith g ".json" = true →
        String.le g filename → g ≠ filename →
        (process_file py_repr g st).2 = inr ()) →
  let st' := (process_agents py_repr st).1 in
  (process_agents py_repr st).2 = inl e
  ∧ (∀ g, String.le filename g → agents st' !! g = agents st !! g)
  ∧ (∀ g agent,
       endswith g ".json" = true → String.le g filename → g ≠ filename →
       agents st !! g = Some (Some agent) →
       ∃ u, rewritten_record (replace ".json" "" g) agent u
            ∧ agents st' !! g = Some (Some u)).
Proof.
  intros Hin He Hbad Hgood. cbv zeta.
  pose proof (sorted_listing_NoDup (agents st)) as Hnd.
  assert (StronglySorted String.le (sorted (map_to_list (agents st)).*1)) as Hss
    by (apply StronglySorted_merge_sort; apply _).
  apply elem_of_sorted_listing in Hin as Hf.
  apply list_elem_of_split in Hf as (l1 & l2 & Hl).
  rewrite Hl in Hnd, Hss.
  apply NoDup_app in Hnd as (Hnd1 & Hdisj & Hnd2).
  assert (filename ∉ l1) as Hf1 by (intros H; apply (Hdisj _ H); left).
  assert (∀ g, g ∈ l1 → String.le g filename ∧ g ≠ filename) as Hbefore.
  { intros g Hg. split; [|by intros ->].
    eapply (StronglySorted_app_1_elem_of String.le); [exact Hss|exact Hg|left]. }
  assert (∀ g, g ∈ l2 → String.le filename g ∧ g ≠ filename) as Hafter.
  { intros g Hg. apply NoDup_cons in Hnd2 as [Hn2 _]. split; [|by intros ->].
    apply StronglySorted_app_1_r in Hss. apply StronglySorted_inv in Hss as [_ Hall].
    rewrite Forall_forall in Hall. by apply Hall. }
  assert (∀ g, g ∈ l1 → is_Some (agents st !! g)) as Hdir.
  { intros g Hg. apply elem_of_sorted_listing. rewrite Hl. apply elem_of_app. by left. }
  (* the files before [filename] all return *)
  destruct (loop_plan py_repr l1 (agents st)) as [[a1 ops1] r1] eqn:H1.
  assert (r1 = inr ()) as ->.
  { pose proof (loop_plan_returns_iff py_repr l1 (agents st) Hnd1) as Hiff.
    rewrite H1 in Hiff. cbn [snd] in Hiff. apply Hiff. intros g Hg.
    destruct (endswith g ".json") eqn:Heg.
    - destruct (Hbefore g Hg) as [Hle Hne]. apply process_file_ok; [done|].
      by apply Hgood; [apply Hdir| | |].
    - rewrite file_plan_not_json by done. eauto. }
  destruct (process_file_raises _ _ _ _ He Hbad) as [opsf Hpf].
  assert (loop_plan py_repr (sorted (map_to_list (agents st)).*1) (agents st)
          = (a1, (ops1 ++ opsf)%list, inl e)) as Hrun.
  { rewrite Hl, loop_plan_app, H1. cbn [loop_plan].
    rewrite (loop_plan_frame _ _ _ _ _ _ filename H1 Hf1), Hpf. reflexivity. }
  rewrite (process_agents_run _ _ _ _ _ Hrun). cbn [fst snd agents].
  split; [reflexivity|]. split.
  - intros g Hle. apply (loop_plan_frame _ _ _ _ _ _ g H1).
    intros Hg. destruct (Hbefore g Hg) as [Hle' Hne]. apply Hne.
    by apply (anti_symm String.le).
  - intros g agent Heg Hle Hne Hc.
    assert (g ∈ l1) as Hg.
    { assert (g ∈ sorted (map_to_list (agents st)).*1) as Hg
        by (apply elem_of_sorted_listing; eauto).
      rewrite Hl in Hg. apply elem_of_app in Hg as [Hg|Hg]; [exact Hg|].
      apply elem_of_cons in Hg as [->|Hg]; [done|].
      destruct (Hafter g Hg) as [Hle' _]. destruct Hne.
      by apply (anti_symm String.le). }
    destruct (loop_plan_completed _ _ _ _ _ g Hnd1 H1 Hg Heg)
      as (agent' & u & Ha & Hu & Hw).
    assert (agent' = agent) as -> by congruence.
    exists u. split; [by apply updated_of_rewritten|exact Hw].
Qed.

(** ** The skills directory after a normal run *)






(** ** The documentation file read back *)

Lemma contains_nl_cons (c : ascii) (s : string) :
  contains nl (String c s) = false → c ≠ "010"%char ∧ contains nl s = false.
Proof.
  cbn [contains]. intros [Hp Hc]%orb_false_elim. split; [|exact Hc].
  intros ->. by destruct s.
Qed.

Lemma split_at_nl (s1 s2 r1 r2 : string) :
  contains nl s1 = false → contains nl s2 = false →
  s1 +:+ nl +:+ r1 = s2 +:+ nl +:+ r2 → s1 = s2 ∧ r1 = r2.
Proof.
  revert s2. induction s1 as [|c s1 IH]; intros [|c' s2] H1 H2 E.
  - split; [reflexivity|]. by injection E.
  - apply contains_nl_cons in H2 as [Hc _]. injection E as E _. by destruct Hc.
  - apply contains_nl_cons in H1 as [Hc _]. injection E as E _. by destruct Hc.
  - apply contains_nl_cons in H1 as [_ H1]. apply contains_nl_cons in H2 as [_ H2].
    rewrite !app_cons in E. injection E as -> E.
    destruct (IH _ H1 H2 E) as [-> ->]. done.
Qed.

Lemma app_inv_tail_str (s1 s2 t : string) : s1 +:+ t = s2 +:+ t → s1 = s2.
Proof.
  revert s2. induction s1 as [|c s1 IH]; intros [|c' s2] E; [reflexivity|..].
  - apply (f_equal String.length) in E. rewrite !length_app in E.
    cbn [String.length] in E. lia.
  - apply (f_equal String.length) in E. rewrite !length_app in E.
    cbn [String.length] in E. lia.
  - rewrite !app_cons in E. injection E as -> E. f_equal. by apply IH.
Qed.

(** Name, description and prompt go into SKILL.md as they are, without
    quoting. When the names and descriptions are single lines, the file
    determines all three: two records with the same SKILL.md have the same
    name, description and prompt. *)
Theorem generate_skill_md_injective (py_repr : json → string)
    (name description prompt name' description' prompt' : string) :
  contains nl name = false → contains nl name' = false →
  contains nl description = false → contains nl description' = false →
  generate_skill_md py_repr (JStr name) (JStr description) (JStr prompt)
  = generate_skill_md py_repr (JStr name') (JStr description') (JStr prompt') →
  name = name' ∧ description = description' ∧ prompt = prompt'.
Proof.
  intros Hn Hn' Hd Hd' E. unfold generate_skill_md in E. cbn [format] in E.
  do 3 apply (inj (String.append _)) in E.
  apply split_at_nl in E as [-> E]; [|done..].
  apply (inj (String.append _)) in E.
  apply split_at_nl in E as [-> E]; [|done..].
  do 3 apply (inj (String.append _)) in E.
  by apply app_inv_tail_str in E as ->.
Qed.

Lemma generate_skill_md_injective_witness :
  contains nl "helper" = false ∧ contains nl "helper" = false
  ∧ contains nl "An example agent" = false ∧ contains nl "An example agent" = false
  ∧ generate_skill_md example_repr (JStr "helper") (JStr "An example agent")
      (JStr "Help.")
    = generate_skill_md example_repr (JStr "helper") (JStr "An example agent")
        (JStr "Help.")
  ∧ "helper" = "helper" ∧ "An example agent" = "An example agent" ∧ "Help." = "Help.".
Proof.
  do 5 (split; [reflexivity|]).
  exact (generate_skill_md_injective example_repr "helper" "An example agent" "Help."
           "helper" "An example agent" "Help." eq_refl eq_refl eq_refl eq_refl eq_refl).
Defined.

(** Without that condition the file does not determine them: a line break
    in the name can pass for the start of the description. *)
Example generate_skill_md_not_injective :
  generate_skill_md example_repr (JStr ("a" +:+ nl +:+ "description: b")) (JStr "c")
    (JStr "p")
  = generate_skill_md example_repr (JStr "a") (JStr ("b" +:+ nl +:+ "description: c"))
      (JStr "p").
Proof. reflexivity. Qed.

(** ** Objects of the resolver, for every pair of agents *)

Lemma extra_mcps_distinct_cases (agent_name : string) :
  dict_get_default AGENT_MCPS agent_name []
  ∈ [ []; ["context7"; "sequential-thinking"; "aws-kb"]; ["context7"; "aws-kb"];
      ["context7"; "dynamodb"; "aws-kb"]; ["context7"; "playwright"]; ["context7"];
      ["context7"; "dynamodb"]; ["playwright"];
      ["context7"; "sequential-thinking"; "puppeteer"; "playwright"];
      ["context7"; "puppeteer"] ].
Proof.
  pose proof (extra_mcps_cases agent_name) as H.
  generalize dependent (dict_get_default AGENT_MCPS agent_name []).
  intros extras H.
  each_extra_list H; apply (bool_decide_unpack _); vm_compute; exact I.
Qed.

Ltac each_elem H :=
  repeat (apply elem_of_cons in H as [->|H]); [..|apply elem_of_nil in H; destruct H].

(** Resolving an agent changes no object that was there before: the static
    table reads afterwards as it is written in the source, and a mapping
    resolved earlier reads as it did, whichever the two agents are. *)
Theorem resolver_leaves_objects (agent1 agent2 : string) :
  ∃ first h,
    resolve_twice agent1 agent2 []
    = inr (((first, first),
            (JDict (prod_map id JDict <$> MCP_SERVERS),
             JDict (prod_map id JDict <$> MCP_SERVERS))), h).
Proof.
  unfold resolve_twice, Heap.build_mcp_servers.
  pose proof (extra_mcps_distinct_cases agent1) as H1.
  pose proof (extra_mcps_distinct_cases agent2) as H2.
  generalize dependent (dict_get_default AGENT_MCPS agent2 []). intros extras2 H2.
  generalize dependent (dict_get_default AGENT_MCPS agent1 []). intros extras1 H1.
  each_elem H1; each_elem H2; do 2 eexists; vm_compute; reflexivity.
Qed.

(** Each descriptor of a resolved mapping is a dict of its own: assigning
    to a field of one agent's descriptor changes neither another agent's
    mapping nor the static table, whichever the agents, the server, the
    field and the value are. *)
Theorem descriptor_field_is_private (agent1 agent2 name key value : string) :
  name ∈ (["filesystem"; "memory"] ++ dict_get_default AGENT_MCPS agent1 [])%list →
  ∃ other table h,
    Heap.two_agents agent1 agent2 (Heap.set_field name key value) []
    = inr (((other, other), (table, table)), h).
Proof.
  unfold Heap.two_agents, Heap.build_mcp_servers.
  pose proof (extra_mcps_distinct_cases agent1) as H1.
  pose proof (extra_mcps_distinct_cases agent2) as H2.
  generalize dependent (dict_get_default AGENT_MCPS agent2 []). intros extras2 H2.
  generalize dependent (dict_get_default AGENT_MCPS agent1 []). intros extras1 H1 Hn.
  each_elem H1; cbn [app] in Hn; each_elem Hn; each_elem H2;
    do 3 eexists; vm_compute; reflexivity.
Qed.

Lemma descriptor_field_is_private_witness :
  "dynamodb" ∈ (["filesystem"; "memory"]
                ++ dict_get_default AGENT_MCPS "data-scientist" [])%list
  ∧ ∃ other table h,
      Heap.two_agents "data-scientist" "python-backend"
        (Heap.set_field "dynamodb" "command" "other") []
      = inr (((other, other), (table, table)), h).
Proof.
  assert ("dynamodb" ∈ (["filesystem"; "memory"]
                        ++ dict_get_default AGENT_MCPS "data-scientist" [])%list) as H
    by (apply (bool_decide_unpack _); vm_compute; exact I).
  split; [exact H|].
  exact (descriptor_field_is_private "data-scientist" "python-backend" "dynamodb"
           "command" "other" H).
Defined.

(** The environment mapping of an extra server is copied as well:
    assigning to a key of it in one agent's mapping changes neither another
    agent's mapping nor the static table. *)
Theorem env_is_private (agent1 agent2 name key value : string) :
  name ∈ dict_get_default AGENT_MCPS agent1 [] →
  name ∈ ["dynamodb"; "aws-kb"] →
  ∃ other table h,
    Heap.two_agents agent1 agent2 (Heap.set_env name key value) []
    = inr (((other, other), (table, table)), h).
Proof.
  unfold Heap.two_agents, Heap.build_mcp_servers.
  pose proof (extra_mcps_distinct_cases agent1) as H1.
  pose proof (extra_mcps_distinct_cases agent2) as H2.
  generalize dependent (dict_get_default AGENT_MCPS agent2 []). intros extras2 H2.
  generalize dependent (dict_get_default AGENT_MCPS agent1 []). intros extras1 H1 Hn He.
  each_elem H1; each_elem He;
    try (apply (bool_decide_pack _) in Hn; vm_compute in Hn; by destruct Hn);
    each_elem H2; do 3 eexists; vm_compute; reflexivity.
Qed.

Lemma env_is_private_witness :
  "dynamodb" ∈ dict_get_default AGENT_MCPS "data-scientist" []
  ∧ "dynamodb" ∈ ["dynamodb"; "aws-kb"]
  ∧ ∃ other table h,
      Heap.two_agents "data-scientist" "python-backend"
        (Heap.set_env "dynamodb" "AWS_REGION" "us-east-1") []
      = inr (((other, other), (table, table)), h).
Proof.
  assert ("dynamodb" ∈ dict_get_default AGENT_MCPS "data-scientist" []) as H
    by (apply (bool_decide_unpack _); vm_compute; exact I).
  assert ("dynamodb" ∈ ["dynamodb"; "aws-kb"]) as H' by (apply (bool_decide_unpack _); vm_compute; exact I).
  split; [exact H|]. split; [exact H'|].
  exact (env_is_private "data-scientist" "python-backend" "dynamodb"
           "AWS_REGION" "us-east-1" H H').
Defined.

(** ** The printed lines *)

Lemma on_disk_bind {A B} (m : M A) (k : A → W B) (w : world) :
  (on_disk m ≫= k) w =
    match m (disk w) with
    | (st, inl e) => (World st (stdout w), inl e)
    | (st, inr x) => k x (World st (stdout w))
    end.
Proof. unfold mbind, W_bind, on_disk. by destruct (m (disk w)) as [st [e|x]]. Qed.

Lemma on_disk_lift_bind {A B} (r : result A) (k : A → W B) (w : world) :
  (on_disk (lift r) ≫= k) w =
    match r with
    | inl e => (w, inl e)
    | inr x => k x w
    end.
Proof. rewrite on_disk_bind. unfold lift. destruct w. by destruct r. Qed.

Lemma print_bind {B} (line : string) (k : () → W B) (w : world) :
  (print line ≫= k) w = k () (World (disk w) (stdout w ++ [line])).
Proof. reflexivity. Qed.

Lemma body_verbose_lines (py_repr : json → string) (filename : string) (w : world) :
  (if negb (endswith filename ".json") then mret ()
   else process_file_verbose py_repr filename) w =
    let '(st, r) :=
      (if negb (endswith filename ".json") then mret ()
       else process_file py_repr filename) (disk w) in
    (World st (stdout w ++ file_lines py_repr filename (agents (disk w) !! filename)), r).
Proof.
  unfold file_lines. destruct w as [[a sk] out]. cbn [disk stdout agents].
  destruct (endswith filename ".json"); cbn [negb].
  2: { unfold mret, W_ret, M_ret. cbv beta iota. by rewrite app_nil_r. }
  rewrite process_file_unfold. cbn [agents skills]. cbv zeta.
  unfold process_file_verbose. cbv zeta.
  generalize (replace ".json" "" filename). intros agent_name.
  rewrite on_disk_bind. unfold json_load. cbn [disk agents stdout].
  destruct (a !! filename) as [[agent|]|]; rewrite ?app_nil_r; try reflexivity.
  rewrite on_disk_bind. cbn [disk stdout].
  assert (makedirs agent_name (Fs a sk) = (Fs a (with_dir agent_name sk), inr ())) as ->.
  { unfold makedirs, with_dir. cbn [skills agents]. by destruct (sk !! agent_name). }
  unfold skill_of, updated_of.
  do 3 (rewrite on_disk_lift_bind;
        match goal with
        | |- context [subscript ?v ?k] =>
            destruct (subscript v k) eqn:?;
            rewrite ?result_bind_inl, ?result_bind_inr, ?app_nil_r; [reflexivity|]
        end).
  rewrite on_disk_bind. cbn [disk stdout].
  assert (∀ doc, write_skill agent_name doc (Fs a (with_dir agent_name sk))
                 = (Fs a (<[agent_name := Some doc]> sk), inr ())) as ->.
  { intros doc. unfold write_skill, with_dir. cbn [skills agents].
    destruct (sk !! agent_name) eqn:E; cbn [skills agents].
    - by rewrite E.
    - by rewrite lookup_insert_eq, insert_insert_eq. }
  rewrite print_bind. cbn [disk stdout].
  change (mret (M:=result) (generate_skill_md py_repr j j0 j1))
    with (@inr exn string (generate_skill_md py_repr j j0 j1)).
  cbv beta iota.
  rewrite on_disk_lift_bind, on_disk_lift_bind.
  destruct (summarize_prompt agent_name j1) as [e|brief];
    rewrite ?result_bind_inl, ?result_bind_inr; [reflexivity|].
  rewrite on_disk_lift_bind.
  destruct (build_mcp_servers agent_name) as [e|servers];
    rewrite ?result_bind_inl, ?result_bind_inr; [reflexivity|].
  rewrite !on_disk_lift_bind.
  destruct (subscript agent "tools") as [e|tools];
    rewrite ?result_bind_inl, ?result_bind_inr; [reflexivity|].
  rewrite on_disk_lift_bind.
  destruct (subscript agent "allowedTools") as [e|allowed];
    rewrite ?result_bind_inl, ?result_bind_inr; [reflexivity|].
  rewrite on_disk_bind. unfold json_dump. cbn [disk stdout agents skills].
  unfold print. cbn [disk stdout].
  unfold mret, result_ret, Result.ret. cbv beta iota.
  by rewrite <- app_assoc.
Qed.

Lemma for_W_lines (py_repr : json → string) (l : list string) (w : world) :
  for_W l (λ filename,
      if negb (endswith filename ".json") then mret ()
      else process_file_verbose py_repr filename) w =
    let '(a', ops, r) := loop_plan py_repr l (agents (disk w)) in
    (World (Fs a' (apply_ops ops (skills (disk w))))
           (stdout w ++ loop_lines py_repr l (agents (disk w))), r).
Proof.
  revert w. induction l as [|filename l IH]; intros [[a sk] out].
  - cbn [for_W loop_plan loop_lines disk stdout agents skills].
    unfold mret, W_ret, apply_ops. cbn [foldl]. by rewrite app_nil_r.
  - cbn [for_W loop_plan loop_lines]. unfold mbind at 1. unfold W_bind.
    rewrite body_verbose_lines. cbn [disk stdout agents skills].
    rewrite body_plan.
    destruct (file_plan py_repr filename (a !! filename)) as [ops [e|c]]; cbn [outcome].
    + by rewrite app_nil_r.
    + rewrite IH. cbn [disk stdout agents skills].
      destruct (loop_plan py_repr l (store filename c a)) as [[a' ops'] r].
      by rewrite apply_ops_app, app_assoc.
Qed.

Lemma process_agents_verbose_lines (py_repr : json → string) (w : world) :
  process_agents_verbose py_repr w =
    let '(st, r) := process_agents py_repr (disk w) in
    (World st (stdout w
               ++ loop_lines py_repr (sorted (map_to_list (agents (disk w))).*1)
                    (agents (disk w))), r).
Proof.
  rewrite process_agents_plan. unfold process_agents_verbose.
  rewrite on_disk_bind. unfold listdir. destruct w as [st out].
  cbn [disk stdout]. rewrite for_W_lines. cbn [disk stdout].
  by destruct (loop_plan py_repr _ (agents st)) as [[a' ops] r].
Qed.

Lemma loop_lines_returns (py_repr : json → string) (l : list string)
    (a a' : gmap string (option json)) (ops : list skill_op) :
  loop_plan py_repr l a = (a', ops, inr ()) →
  loop_lines py_repr l a =
    filter (λ f, endswith f ".json" = true) l ≫= λ filename,
      let agent_name := replace ".json" "" filename in
      match build_mcp_servers agent_name with
      | inr servers =>
          [ "  + skill: " +:+ agent_name +:+ "/SKILL.md";
            "  * agent: " +:+ agent_name +:+ ".json -> MCPs: "
            +:+ String.concat ", " (keys servers) ]
      | inl _ => []
      end.
Proof.
  revert a a' ops. induction l as [|g l IH]; intros a a' ops; [reflexivity|].
  cbn [loop_plan loop_lines]. rewrite filter_cons.
  destruct (file_plan py_repr g (a !! g)) as [ops1 [e|c]] eqn:Hp; [intros ?; simplify_eq|].
  destruct (loop_plan py_repr l (store g c a)) as [[a2 ops2] r2] eqn:Hl.
  intros ?. simplify_eq. rewrite (IH _ _ _ Hl).
  destruct (decide (endswith g ".json" = true)) as [He|He].
  - destruct (file_plan_json_ok _ _ _ _ _ He Hp) as [u ->].
    apply file_plan_rewrites in Hp as (_ & agent & doc & -> & Hd & Hu & _).
    unfold file_lines. rewrite He, Hd, Hu. cbn [negb].
    destruct (build_mcp_servers_returns (replace ".json" "" g)) as (servers & Hb & Hk).
    cbn [mbind list_bind]. cbv zeta. rewrite Hb, Hk. reflexivity.
  - apply not_true_is_false in He. unfold file_lines. rewrite He. reflexivity.
Qed.

(** On a run that ends normally the script prints, for each file whose name
    ends in ".json", in sorted order, the line of its SKILL.md and then the
    line of its record; the servers named there are the keys of the
    mapping written to the record, in their order. Nothing else is
    printed. *)
Theorem process_agents_verbose_output (py_repr : json → string) (w w' : world) :
  process_agents_verbose py_repr w = (w', inr ()) →
  stdout w' =
    (stdout w
     ++ (filter (λ f, endswith f ".json" = true)
                (sorted (map_to_list (agents (disk w))).*1) ≫= λ filename,
           let agent_name := replace ".json" "" filename in
           match build_mcp_servers agent_name with
           | inr servers =>
               [ "  + skill: " +:+ agent_name +:+ "/SKILL.md";
                 "  * agent: " +:+ agent_name +:+ ".json -> MCPs: "
                 +:+ String.concat ", " (keys servers) ]
           | inl _ => []
           end))%list.
Proof.
  rewrite process_agents_verbose_lines.
  destruct (loop_plan py_repr (sorted (map_to_list (agents (disk w))).*1)
              (agents (disk w))) as [[a' ops] r] eqn:Hl.
  rewrite (process_agents_run _ _ _ _ _ Hl). intros H.
  assert (r = inr ()) as -> by congruence.
  rewrite <- (loop_lines_returns _ _ _ _ _ Hl).
  by injection H as <-.
Qed.

Lemma file_lines_indented (py_repr : json → string) (filename : string)
    (c : option (option json)) :
  Forall (λ line, String.prefix "  " line = true) (file_lines py_repr filename c).
Proof.
  unfold file_lines. destruct (negb _); [constructor|].
  destruct c as [[agent|]|]; try constructor.
  destruct (skill_of py_repr agent); [constructor|].
  destruct (updated_of _ agent); repeat constructor.
Qed.

Lemma loop_lines_indented (py_repr : json → string) (l : list string)
    (a : gmap string (option json)) :
  Forall (λ line, String.prefix "  " line = true) (loop_lines py_repr l a).
Proof.
  revert a. induction l as [|g l IH]; intros a; [constructor|].
  cbn [loop_lines]. apply Forall_app. split; [apply file_lines_indented|].
  destruct (file_plan py_repr g (a !! g)) as [ops [e|c]]; [constructor|apply IH].
Qed.

Lemma main_unfold (py_repr : json → string) (script_dir : string) (w : world) :
  main py_repr script_dir w =
    let '(st, r) := process_agents py_repr (disk w) in
    let out :=
      (stdout w
       ++ ("Generating SKILL.md files and updating agent JSONs..." +:+ nl)
          :: loop_lines py_repr (sorted (map_to_list (agents (disk w))).*1)
               (agents (disk w)))%list in
    match r with
    | inl e => (World st out, inl e)
    | inr _ =>
        (World st
           (out ++ [ nl +:+ "Done! Generated skills in " +:+ path_join script_dir "skills";
                     "Updated agents in " +:+ path_join script_dir "agents" ]),
         inr ())
    end.
Proof.
  unfold main. cbv zeta. rewrite print_bind.
  unfold mbind at 1. unfold W_bind. rewrite process_agents_verbose_lines.
  cbn [disk stdout].
  destruct (process_agents py_repr (disk w)) as [st [e|[]]].
  - by rewrite <- app_assoc.
  - unfold mbind, W_bind, print. cbn [disk stdout]. unfold mret, W_ret.
    by rewrite <- !app_assoc.
Qed.

(** The main block prints its heading, runs [process_agents] and, when that
    returns, the two closing lines. The directories end as [process_agents]
    leaves them and an exception of the run is the exception of the script;
    the line "Done! ..." is printed exactly when the run ended normally. *)
Theorem main_prints_done (py_repr : json → string) (script_dir : string) (w : world) :
  let done_line := nl +:+ "Done! Generated skills in " +:+ path_join script_dir "skills" in
  let run := process_agents py_repr (disk w) in
  disk (main py_repr script_dir w).1 = run.1
  ∧ (main py_repr script_dir w).2 = run.2
  ∧ ∃ printed,
      stdout (main py_repr script_dir w).1 = (stdout w ++ printed)%list
      ∧ (done_line ∈ printed ↔ run.2 = inr ()).
Proof.
  cbv zeta. rewrite main_unfold.
  destruct (process_agents py_repr (disk w)) as [st [e|[]]]; cbn [fst snd disk stdout].
  - split; [reflexivity|]. split; [reflexivity|]. eexists. split; [reflexivity|].
    split; [|discriminate]. intros [Hh|Hl]%elem_of_cons; [discriminate|].
    pose proof (loop_lines_indented py_repr
                  (sorted (map_to_list (agents (disk w))).*1) (agents (disk w))) as Hind.
    rewrite Forall_forall in Hind. specialize (Hind _ Hl). discriminate Hind.
  - split; [reflexivity|]. split; [reflexivity|]. eexists. split.
    + rewrite <- app_assoc. reflexivity.
    + split; [reflexivity|]. intros _. rewrite <- app_comm_cons.
      apply elem_of_cons. right. apply elem_of_app. right. left.
Qed.

(** ** A second run *)

(** The records settle with the first run: a second run, on what the first
    left, changes no file of the agents directory and ends as the first
    did. Only SKILL.md files can still change. *)
Theorem process_agents_records_settle (py_repr : json → string) (st : fs) :
  let run1 := process_agents py_repr st in
  let run2 := process_agents py_repr run1.1 in
  agents run2.1 = agents run1.1 ∧ run2.2 = run1.2.
Proof.
  cbv zeta. destruct st as [a sk].
  pose proof (sorted_listing_NoDup a) as Hnd.
  destruct (loop_plan py_repr (sorted (map_to_list a).*1) a) as [[a1 ops1] r1] eqn:H1.
  destruct (loop_plan_fixed _ _ _ _ _ _ Hnd H1) as [ops2 H2].
  rewrite (sorted_listing_dom a a1) in H2
    by (symmetry; exact (loop_plan_dom _ _ _ _ _ _ H1)).
  rewrite (process_agents_run py_repr (Fs a sk) _ _ _ H1). cbn [fst snd].
  by rewrite (process_agents_run py_repr (Fs a1 _) _ _ _ H2).
Qed.



(** ** The further properties at the small instances *)


Lemma process_file_not_object_witness :
  agents (single_fs "list.json" (Some (JList []))) !! "list.json" = Some (Some (JList []))
  ∧ (∀ d, JList [] ≠ JDict d)
  ∧ process_file example_repr "list.json" (single_fs "list.json" (Some (JList [])))
    = ((makedirs (replace ".json" "" "list.json")
          (single_fs "list.json" (Some (JList [])))).1, inl TypeError).
Proof.
  assert (agents (single_fs "list.json" (Some (JList []))) !! "list.json"
          = Some (Some (JList []))) as H by (vm_compute; reflexivity).
  split; [exact H|]. split; [discriminate|].
  apply (process_file_not_object example_repr "list.json" _ (JList []) H). discriminate.
Defined.

Lemma process_file_missing_key_witness :
  let d := [("name", JStr "n"); ("prompt", JStr "p")] in
  agents (single_fs "n.json" (Some (JDict d))) !! "n.json" = Some (Some (JDict d))
  ∧ filter (λ k, dict_mem d k = false) ["name"; "description"; "prompt"]
    = "description" :: []
  ∧ process_file example_repr "n.json" (single_fs "n.json" (Some (JDict d)))
    = ((makedirs (replace ".json" "" "n.json") (single_fs "n.json" (Some (JDict d)))).1,
       inl (KeyError "description")).
Proof.
  intros d.
  assert (agents (single_fs "n.json" (Some (JDict d))) !! "n.json" = Some (Some (JDict d)))
    as H by (vm_compute; reflexivity).
  assert (filter (λ k, dict_mem d k = false) ["name"; "description"; "prompt"]
          = "description" :: []) as Hk by (vm_compute; reflexivity).
  split; [exact H|]. split; [exact Hk|].
  exact (process_file_missing_key example_repr "n.json" _ d "description" [] H Hk).
Defined.

Lemma process_file_unsliceable_prompt_witness :
  let agent := JDict [ ("name", JStr "n"); ("description", JStr "d");
                       ("prompt", JInt 5); ("tools", JList []);
                       ("allowedTools", JList []) ] in
  let st := single_fs "code-reviewer.json" (Some agent) in
  agents st !! "code-reviewer.json" = Some (Some agent)
  ∧ subscript agent "name" = inr (JStr "n")
  ∧ subscript agent "description" = inr (JStr "d")
  ∧ subscript agent "prompt" = inr (JInt 5)
  ∧ (∀ s, JInt 5 ≠ JStr s) ∧ (∀ l, JInt 5 ≠ JList l)
  ∧ process_file example_repr "code-reviewer.json" st
    = (Fs (agents st)
          (<[replace ".json" "" "code-reviewer.json"
             := Some (generate_skill_md example_repr (JStr "n") (JStr "d") (JInt 5))]>
             (skills st)),
       inl TypeError).
Proof.
  intros agent st.
  assert (agents st !! "code-reviewer.json" = Some (Some agent)) as H
    by (vm_compute; reflexivity).
  split; [exact H|]. do 3 (split; [reflexivity|]).
  split; [discriminate|]. split; [discriminate|].
  apply (process_file_unsliceable_prompt example_repr "code-reviewer.json" st agent
           (JStr "n") (JStr "d") (JInt 5) H eq_refl eq_refl eq_refl); discriminate.
Defined.

Lemma process_file_missing_tools_witness :
  let d := [ ("name", JStr "b"); ("description", JStr "No tools");
             ("prompt", JStr "Second prompt.") ] in
  agents example_broken_fs !! "b.json" = Some (Some (JDict d))
  ∧ dict_get d "name" = Some (JStr "b")
  ∧ dict_get d "description" = Some (JStr "No tools")
  ∧ dict_get d "prompt" = Some (JStr "Second prompt.")
  ∧ ((∃ s, JStr "Second prompt." = JStr s) ∨ (∃ l, JStr "Second prompt." = JList l))
  ∧ filter (λ k, dict_mem d k = false) ["tools"; "allowedTools"]
    = "tools" :: ["allowedTools"]
  ∧ process_file example_repr "b.json" example_broken_fs
    = (Fs (agents example_broken_fs)
          (<[replace ".json" "" "b.json"
             := Some (generate_skill_md example_repr (JStr "b") (JStr "No tools")
                        (JStr "Second prompt."))]> (skills example_broken_fs)),
       inl (KeyError "tools")).
Proof.
  intros d.
  assert (agents example_broken_fs !! "b.json" = Some (Some (JDict d))) as H
    by (vm_compute; reflexivity).
  assert ((∃ s, JStr "Second prompt." = JStr s) ∨ (∃ l, JStr "Second prompt." = JList l))
    as Hs by (left; eexists; reflexivity).
  assert (filter (λ k, dict_mem d k = false) ["tools"; "allowedTools"]
          = "tools" :: ["allowedTools"]) as Hk by (vm_compute; reflexivity).
  split; [exact H|]. do 3 (split; [reflexivity|]). split; [exact Hs|]. split; [exact Hk|].
  exact (process_file_missing_tools example_repr "b.json" example_broken_fs d
           (JStr "b") (JStr "No tools") (JStr "Second prompt.") "tools" ["allowedTools"]
           H eq_refl eq_refl eq_refl Hs Hk).
Defined.

Lemma example_broken_fs_names (g : string) :
  is_Some (agents example_broken_fs !! g) → g = "a.json" ∨ g = "b.json".
Proof.
  unfold example_broken_fs. cbn [agents].
  rewrite !lookup_insert_is_Some, lookup_empty. intros [->|[_ [->|[_ []%is_Some_None]]]]; eauto.
Qed.

Lemma process_agents_stops_at_first_failure_witness :
  let st' := (process_agents example_repr example_broken_fs).1 in
  is_Some (agents example_broken_fs !! "b.json")
  ∧ endswith "b.json" ".json" = true
  ∧ (process_file example_repr "b.json" example_broken_fs).2 = inl (KeyError "tools")
  ∧ (∀ g, is_Some (agents example_broken_fs !! g) → endswith g ".json" = true →
          String.le g "b.json" → g ≠ "b.json" →
          (process_file example_repr g example_broken_fs).2 = inr ())
  ∧ (process_agents example_repr example_broken_fs).2 = inl (KeyError "tools")
  ∧ (∀ g, String.le "b.json" g → agents st' !! g = agents example_broken_fs !! g)
  ∧ (∀ g agent,
       endswith g ".json" = true → String.le g "b.json" → g ≠ "b.json" →
       agents example_broken_fs !! g = Some (Some agent) →
       ∃ u, rewritten_record (replace ".json" "" g) agent u
            ∧ agents st' !! g = Some (Some u)).
Proof.
  intros st'.
  assert (is_Some (agents example_broken_fs !! "b.json")) as H1
    by (vm_compute; eexists; reflexivity).
  assert ((process_file example_repr "b.json" example_broken_fs).2
          = inl (KeyError "tools")) as H3 by (vm_compute; reflexivity).
  assert (∀ g, is_Some (agents example_broken_fs !! g) → endswith g ".json" = true →
               String.le g "b.json" → g ≠ "b.json" →
               (process_file example_repr g example_broken_fs).2 = inr ()) as H4.
  { intros g Hg _ _ Hne. destruct (example_broken_fs_names g Hg) as [->| ->].
    - vm_compute. reflexivity.
    - destruct Hne. reflexivity. }
  split; [exact H1|]. split; [reflexivity|]. split; [exact H3|]. split; [exact H4|].
  exact (process_agents_stops_at_first_failure example_repr example_broken_fs "b.json"
           (KeyError "tools") H1 eq_refl H3 H4).
Defined.


Lemma process_agents_verbose_output_witness :
  let w := World example_fs [] in
  let w' := (process_agents_verbose example_repr w).1 in
  process_agents_verbose example_repr w = (w', inr ())
  ∧ stdout w' =
      (stdout w
       ++ (filter (λ f, endswith f ".json" = true)
                  (sorted (map_to_list (agents (disk w))).*1) ≫= λ filename,
             let agent_name := replace ".json" "" filename in
             match build_mcp_servers agent_name with
             | inr servers =>
                 [ "  + skill: " +:+ agent_name +:+ "/SKILL.md";
                   "  * agent: " +:+ agent_name +:+ ".json -> MCPs: "
                   +:+ String.concat ", " (keys servers) ]
             | inl _ => []
             end))%list.
Proof.
  intros w w'.
  assert (process_agents_verbose example_repr w = (w', inr ())) as H
    by (vm_compute; reflexivity).
  split; [exact H|].
  exact (process_agents_verbose_output example_repr w w' H).
Defined.

Example example_output :
  stdout (main example_repr "/repo/Kiro" (World example_fs [])).1
  = [ "Generating SKILL.md files and updating agent JSONs..." +:+ nl;
      "  + skill: code-reviewer/SKILL.md";
      "  * agent: code-reviewer.json -> MCPs: filesystem, memory";
      "  + skill: helper/SKILL.md";
      "  * agent: helper.json -> MCPs: filesystem, memory";
      nl +:+ "Done! Generated skills in /repo/Kiro/skills";
      "Updated agents in /repo/Kiro/agents" ].
Proof. vm_compute. reflexivity. Qed.
